(** * The workflow endpoint of the AI Workflow Engine worker

    A shallow embedding of [src/index.ts]: the in-memory cache
    ([getCached], [setCache]), the Gist configuration loader
    ([getGistConfig]) and the [/api/workflow] branch of the worker's
    [fetch] handler, followed by the properties of the request
    orchestration that the specification states about them.

    Conventions of the embedding.
    - JavaScript values that the worker handles at type [any] (the Gist
      payload, the parsed configuration, the model response, the result)
      are values of [json]; [undefined] is [None] in an [option json].
    - A JavaScript string is a [string]; one character stands for one
      code unit.  A number is a rational [Q].
    - The module-level [cache] and the KV namespace behind [env.CONFIG]
      are the two components of [State], threaded through the handler.
    - What the host answers during one request (the clock, the Gist
      fetch, [env.AI.run], [env.CONFIG.put]) is given by a [World].
    - Every call that leaves the handler, every cache call and every
      [console.error] is recorded, in order, in a trace of [Event]s. *)

From Stdlib Require Import QArith.
From stdpp Require Import base option list strings gmap fin_maps pretty.

Local Open Scope Z_scope.

(** ** JavaScript values *)

(** A [JObj] lists the own properties of an object in enumeration order,
    every key once. *)
#[warnings="-register-all"]
Inductive json : Type :=
| JNull
| JBool (b : bool)
| JNum (q : Q)
| JStr (s : string)
| JArr (items : list json)
| JObj (fields : list (string * json)).

(** [!v] is [negb (truthy v)]: [null], [false], [0] and [""] are falsy. *)
Definition truthy (v : json) : bool :=
  match v with
  | JNull => false
  | JBool b => b
  | JNum q => negb (Qnum q =? 0)
  | JStr s => negb (String.eqb s "")
  | JArr _ | JObj _ => true
  end.

(** Truthiness of a value that may be [undefined]. *)
Definition truthy_opt (v : option json) : bool :=
  match v with
  | None => false
  | Some x => truthy x
  end.

(** Truthiness of a string or [undefined], as in [!prompt] and
    [env.GIST_ID && env.GITHUB_TOKEN]. *)
Definition truthy_str (s : option string) : bool :=
  match s with
  | None => false
  | Some x => negb (String.eqb x "")
  end.

Fixpoint chars (s : string) : list json :=
  match s with
  | EmptyString => []
  | String c rest => JStr (String c EmptyString) :: chars rest
  end.

(** Keys ["0"], ["1"], ... paired with the elements of a list. *)
Definition indexed (items : list json) : list (string * json) :=
  imap (fun (i : nat) (x : json) => (pretty i, x)) items.

(** The own enumerable properties of a value, in enumeration order: what
    [Object.values] walks and what [{...v}] copies. *)
Definition own_fields (v : json) : list (string * json) :=
  match v with
  | JObj fields => fields
  | JArr items => indexed items
  | JStr s => indexed (chars s)
  | JNull | JBool _ | JNum _ => []
  end.

(** [{ ...m, ...v }]: the properties of [v] are assigned onto [m] in
    order, a later assignment replacing an earlier one. *)
Definition assign (m : gmap string json) (kv : string * json) : gmap string json :=
  <[kv.1 := kv.2]> m.

Definition spread (v : json) (m : gmap string json) : gmap string json :=
  foldl assign m (own_fields v).

Definition props (v : json) : gmap string json := spread v ∅.

(** ** State, events and the handler monad *)

Record CacheItem : Type := mkItem { value : json; expiry : Z }.

Record State : Type := mkState {
  cache : gmap string CacheItem;      (* const cache = new Map() *)
  kv : gmap string string             (* the namespace bound to env.CONFIG *)
}.

Definition with_cache (st : State) (c : gmap string CacheItem) : State :=
  {| cache := c; kv := kv st |}.

Definition with_kv (st : State) (k : gmap string string) : State :=
  {| cache := cache st; kv := k |}.

(** A thrown value, seen through its [message] property: an [Error].
    The catch blocks of the worker read [error.message]; a rejection
    with [null] or [undefined], on which that read itself throws, is not
    a [JsError]. *)
Record JsError : Type := mkError { message : string }.

Inductive Event : Type :=
| EvGetCached (key : string)
| EvSetCache (key : string) (v : json) (ttl : Z)
| EvFetchGist (gistId token : string)
| EvAiRun (model : string) (inputs : gmap string json)
| EvKvPut (key val : string) (expirationTtl : Z)
| EvLog (label : string).

Inductive Result (A : Type) : Type :=
| Ok (a : A)
| Throw (e : JsError).
Arguments Ok {A} a.
Arguments Throw {A} e.

(** Sequencing of steps that touch neither the state nor the host. *)
Definition and_then {A B} (r : Result A) (f : A -> Result B) : Result B :=
  match r with
  | Ok a => f a
  | Throw e => Throw e
  end.

Notation "'let?' x ':=' r 'in' k" := (and_then r (fun x => k))
  (at level 10, x name, r at level 100, k at level 200).

(** A computation reads and updates the state, records events, and either
    returns or throws. *)
Definition M (A : Type) : Type := State -> Result A * State * list Event.

Definition ret {A} (a : A) : M A := fun st => (Ok a, st, []).

Definition throw {A} (e : JsError) : M A := fun st => (Throw e, st, []).

Definition bind {A B} (m : M A) (f : A -> M B) : M B :=
  fun st =>
    match m st with
    | (Ok a, st1, t1) =>
        match f a st1 with
        | (r, st2, t2) => (r, st2, t1 ++ t2)
        end
    | (Throw e, st1, t1) => (Throw e, st1, t1)
    end.

(** [try { m } catch (e) { h e }] *)
Definition try_catch {A} (m : M A) (h : JsError -> M A) : M A :=
  fun st =>
    match m st with
    | (Ok a, st1, t1) => (Ok a, st1, t1)
    | (Throw e, st1, t1) =>
        match h e st1 with
        | (r, st2, t2) => (r, st2, t1 ++ t2)
        end
    end.

Definition emit (ev : Event) : M unit := fun st => (Ok tt, st, [ev]).

Definition get_cache : M (gmap string CacheItem) :=
  fun st => (Ok (cache st), st, []).

Definition put_cache (c : gmap string CacheItem) : M unit :=
  fun st => (Ok tt, with_cache st c, []).

Definition get_kv : M (gmap string string) :=
  fun st => (Ok (kv st), st, []).

Definition put_kv (k : gmap string string) : M unit :=
  fun st => (Ok tt, with_kv st k, []).

Notation "'let!' x ':=' m 'in' k" := (bind m (fun x => k))
  (at level 10, x name, m at level 100, k at level 200).
Notation "'do!' m 'in' k" := (bind m (fun _ => k))
  (at level 10, m at level 100, k at level 200).

Definition outcome {A} (r : Result A * State * list Event) : Result A := r.1.1.
Definition final {A} (r : Result A * State * list Event) : State := r.1.2.
Definition trace {A} (r : Result A * State * list Event) : list Event := r.2.

(** ** The host *)

Inductive FetchOutcome : Type :=
| FetchRejects (e : JsError)                          (* network error *)
| FetchResponds (status : Z) (payload : Result json). (* outcome of response.json() *)

(** The answers of the host during one request.  Each [Date.now()] and
    each [new Date()] of the handler is evaluated at most once per
    request and has its own reading. *)
Record World : Type := mkWorld {
  now_get : Z;                  (* Date.now() in getCached *)
  now_set : Z;                  (* Date.now() in setCache *)
  now_put : Z;                  (* Date.now() in the KV key *)
  iso_put : string;             (* new Date() in the KV record *)
  iso_now : string;             (* new Date().toISOString() in the response *)
  fetch_gist : string -> string -> FetchOutcome;        (* fetch of the gist *)
  ai_run : string -> gmap string json -> Result json;   (* env.AI.run *)
  kv_put : string -> string -> Result unit              (* env.CONFIG.put *)
}.

Record Env : Type := mkEnv {
  GIST_ID : option string;
  GITHUB_TOKEN : option string;
  CONFIG : bool                 (* whether a KV namespace is bound *)
}.

(** [WorkflowRequest] of [types/env.ts]: a body of the declared type,
    that is a JSON object whose [prompt] and [model], when present, are
    strings and whose [temperature] and [max_tokens], when present, are
    numbers.  [prompt] may be missing at run time, which the handler
    checks.  A body that is JSON [null], or that holds a field of
    another type, is not a [WorkflowRequest]. *)
Record WorkflowRequest : Type := mkRequest {
  prompt : option string;
  model : option string;
  temperature : option Q;
  max_tokens : option Q
}.

Inductive Source : Type := FromCache | FromAi.

(** The object handed to [JSON.stringify] for the response body. *)
Inductive Body : Type :=
| WorkflowBody (result : json) (source : Source) (model : string) (timestamp : string)
| ErrorBody (error : string) (timestamp : option string).

Record HttpResponse : Type := mkResponse { status : Z; body : Body }.

Definition lift {A} (r : Result A) : M A :=
  match r with
  | Ok a => ret a
  | Throw e => throw e
  end.

(** [v.name] for a name that is not a built-in property of strings or
    arrays (the worker reads [files], [content] and [response]). *)
Definition member (v : option json) (name : string) : Result (option json) :=
  match v with
  | None =>
      Throw (mkError ("Cannot read properties of undefined (reading '" +:+ name +:+ "')"))
  | Some JNull =>
      Throw (mkError ("Cannot read properties of null (reading '" +:+ name +:+ "')"))
  | Some x => Ok (props x !! name)
  end.

Definition Object_values (v : option json) : Result (list json) :=
  match v with
  | None | Some JNull => Throw (mkError "Cannot convert undefined or null to object")
  | Some x => Ok (map snd (own_fields x))
  end.

Definition response_ok (status : Z) : bool :=
  (200 <=? status) && (status <=? 299).

(** ** The cache *)

Definition getCached (w : World) (key : string) : M (option json) :=
  do! emit (EvGetCached key) in
  let! c := get_cache in
  match c !! key with
  | None => ret None
  | Some item =>
      if now_get w >? expiry item
      then do! put_cache (delete key c) in ret None
      else ret (Some (value item))
  end.

Definition setCache (w : World) (key : string) (v : json) (ttl : Z) : M unit :=
  do! emit (EvSetCache key v ttl) in
  let! c := get_cache in
  put_cache (<[key := {| value := v; expiry := now_set w + ttl * 1000 |}]> c).

(** [`ai:${model}:${prompt.substring(0, 50)}`] *)
Definition cacheKey (model prompt : string) : string :=
  "ai:" +:+ model +:+ ":" +:+ String.substring 0 50 prompt.

(** ** The other routes of [fetch] *)

(** The request as [fetch] looks at it.  [request.json()] is read by the
    route that matches, at the type at which that route uses it. *)
Record Request : Type := mkIncoming {
  method : string;
  pathname : string;                        (* new URL(request.url).pathname *)
  json_workflow : Result WorkflowRequest;   (* request.json() at line 83 *)
  json_embed : Result json                  (* request.json() at line 172 *)
}.

(** The variables of [Env] that only the health check reads. *)
Record Vars : Type := mkVars {
  PROJECT_NAME : option string;
  ENVIRONMENT : option string;
  API_VERSION : option string
}.

(** The object handed to [JSON.stringify] for the body of a reply, or
    [null] for the preflight. *)
Inductive Payload : Type :=
| NoPayload
| HealthPayload (health project environment version timestamp : string)
| JsonPayload (b : Body)
| EmbedPayload (embeddings : option json) (timestamp : string)
| NotFoundPayload (error : string) (available_endpoints : list string).

Record Reply : Type := mkReply {
  code : Z;
  headers : list (string * string);
  payload : Payload
}.

Definition corsHeaders : list (string * string) :=
  [("Access-Control-Allow-Origin", "*");
   ("Access-Control-Allow-Methods", "GET, POST, OPTIONS");
   ("Access-Control-Allow-Headers", "Content-Type")].

(** [{ ...corsHeaders, 'Content-Type': 'application/json' }] *)
Definition jsonHeaders : list (string * string) :=
  corsHeaders ++ [("Content-Type", "application/json")].

(** [s || d] for a string that may be [undefined]. *)
Definition or_else (s : option string) (d : string) : string :=
  if truthy_str s then default d s else d.

(** [const { name } = v] *)
Definition destructure (v : json) (name : string) : Result (option json) :=
  match v with
  | JNull =>
      Throw (mkError ("Cannot destructure property '" +:+ name +:+
                      "' of '(intermediate value)' as it is null."))
  | x => Ok (props x !! name)
  end.

Definition embedding_model : string := "@cf/baai/bge-base-en-v1.5".

(** Lines 62-65. *)
Definition preflight : Reply :=
  {| code := 200; headers := corsHeaders; payload := NoPayload |}.

(** Lines 67-78. *)
Definition health_check (vars : Vars) (w : World) : Reply :=
  {| code := 200; headers := jsonHeaders;
     payload := HealthPayload "healthy"
                  (or_else (PROJECT_NAME vars) "Heady AI Workflow Engine")
                  (or_else (ENVIRONMENT vars) "production")
                  (or_else (API_VERSION vars) "v1")
                  (iso_now w) |}.

(** Lines 201-208. *)
Definition not_found : Reply :=
  {| code := 404; headers := jsonHeaders;
     payload := NotFoundPayload "Not found" ["/health"; "/api/workflow"; "/api/embed"] |}.

(** [embeddings.data[0]], line 187. *)
Definition first_embedding (embeddings : json) : Result (option json) :=
  let? data := member (Some embeddings) "data" in
  member data "0".

(** The [/api/embed] branch of [fetch], lines 170-199.  [body] is the
    outcome of [request.json()]. *)
Definition embed (w : World) (body : Result json) : M Reply :=
  try_catch
    (let! parsed := lift body in
     let! text := lift (destructure parsed "text") in
     match text with
     | Some t =>
         if truthy t
         then
           let inputs : gmap string json := {[ "text" := t ]} in
           do! emit (EvAiRun embedding_model inputs) in
           let! embeddings := lift (ai_run w embedding_model inputs) in
           let! first := lift (first_embedding embeddings) in
           ret {| code := 200; headers := jsonHeaders;
                  payload := EmbedPayload first (iso_now w) |}
         else
           ret {| code := 400; headers := jsonHeaders;
                  payload := JsonPayload (ErrorBody "Text is required" None) |}
     | None =>
         ret {| code := 400; headers := jsonHeaders;
                payload := JsonPayload (ErrorBody "Text is required" None) |}
     end)
    (fun e =>
       ret {| code := 500; headers := jsonHeaders;
              payload := JsonPayload (ErrorBody (message e) None) |}).

(** ** Example hosts

    Concrete built-ins, hosts, environments, requests and states, used
    to run the handler and to instantiate the statements below. *)
Module Sample.

Definition dq : string := String (Ascii.Ascii false true false false false true false false) EmptyString.

(** The text [{"temperature":0.2}]. *)
Definition config_text : string := "{" +:+ dq +:+ "temperature" +:+ dq +:+ ":0.2}".

(** [JSON.parse] on the two configuration texts of the examples; every
    other argument is rejected. *)
Definition parse (v : option json) : Result json :=
  match v with
  | Some (JStr s) =>
      if String.eqb s config_text then Ok (JObj [("temperature", JNum (1 # 5))])
      else if String.eqb s "{}" then Ok (JObj [])
      else Throw (mkError "Unexpected token")
  | _ => Throw (mkError "Unexpected token")
  end.

(** A serializer without escapes; whole numbers print in decimal, other
    numbers as a fraction. *)
Definition number_text (q : Q) : string :=
  if (Z.pos (Qden q) =? 1) then pretty (Qnum q)
  else pretty (Qnum q) +:+ "/" +:+ pretty (Z.pos (Qden q)).

Fixpoint stringify (v : json) : string :=
  match v with
  | JNull => "null"
  | JBool b => if b then "true" else "false"
  | JNum q => number_text q
  | JStr s => dq +:+ s +:+ dq
  | JArr items => "[" +:+ String.concat "," (map stringify items) +:+ "]"
  | JObj fields =>
      "{" +:+ String.concat ","
                (map (fun kv => match kv with
                                | (k, x) => dq +:+ k +:+ dq +:+ ":" +:+ stringify x
                                end) fields) +:+ "}"
  end.

Definition gist : json :=
  JObj [("id", JStr "abc123");
        ("files", JObj [("workflow-config.json", JObj [("content", JStr config_text)])])].

Definition answer : json := JObj [("response", JStr "X is a letter.")].

(** The host of an early first request: everything works. *)
Definition host_early : World :=
  {| now_get := 0; now_set := 100; now_put := 200;
     iso_put := "1970-01-01T00:00:00.200Z"; iso_now := "1970-01-01T00:00:00.300Z";
     fetch_gist := fun _ _ => FetchResponds 200 (Ok gist);
     ai_run := fun _ _ => Ok answer;
     kv_put := fun _ _ => Ok tt |}.

(** A host, more than an hour later, on which everything works. *)
Definition host : World :=
  {| now_get := 3700000; now_set := 3700200; now_put := 3700300;
     iso_put := "1970-01-01T01:01:40.300Z"; iso_now := "1970-01-01T01:01:40.400Z";
     fetch_gist := fun _ _ => FetchResponds 200 (Ok gist);
     ai_run := fun _ _ => Ok answer;
     kv_put := fun _ _ => Ok tt |}.

(** The model rejects. *)
Definition host_model_down : World :=
  {| now_get := 3700000; now_set := 3700200; now_put := 3700300;
     iso_put := "1970-01-01T01:01:40.300Z"; iso_now := "1970-01-01T01:01:40.400Z";
     fetch_gist := fun _ _ => FetchResponds 200 (Ok gist);
     ai_run := fun _ _ => Throw (mkError "model unavailable");
     kv_put := fun _ _ => Ok tt |}.

(** The gist cannot be fetched. *)
Definition host_gist_down : World :=
  {| now_get := 3700000; now_set := 3700200; now_put := 3700300;
     iso_put := "1970-01-01T01:01:40.300Z"; iso_now := "1970-01-01T01:01:40.400Z";
     fetch_gist := fun _ _ => FetchResponds 404 (Ok (JObj [("message", JStr "Not Found")]));
     ai_run := fun _ _ => Ok answer;
     kv_put := fun _ _ => Ok tt |}.


(** The model answers without a [response] property. *)
Definition host_no_text : World :=
  {| now_get := 3700000; now_set := 3700200; now_put := 3700300;
     iso_put := "1970-01-01T01:01:40.300Z"; iso_now := "1970-01-01T01:01:40.400Z";
     fetch_gist := fun _ _ => FetchResponds 200 (Ok gist);
     ai_run := fun _ _ => Ok (JObj [("done", JBool true)]);
     kv_put := fun _ _ => Ok tt |}.

Definition env_full : Env :=
  {| GIST_ID := Some "abc123"; GITHUB_TOKEN := Some "ghp_token"; CONFIG := true |}.

Definition env_bare : Env :=
  {| GIST_ID := None; GITHUB_TOKEN := None; CONFIG := false |}.

Definition req : WorkflowRequest :=
  {| prompt := Some "Explain X"; model := Some "m1";
     temperature := Some (9 # 10); max_tokens := None |}.

Definition req_empty : WorkflowRequest :=
  {| prompt := Some ""; model := Some "m1";
     temperature := Some (9 # 10); max_tokens := None |}.

Definition key : string := cacheKey "m1" "Explain X".

Definition empty : State := {| cache := ∅; kv := ∅ |}.

(** The state after the early request: an entry under [key] that has
    expired at [now_get host]. *)
Definition stale : State :=
  {| cache := {[ key := {| value := JStr "X is a letter."; expiry := 3600100 |} ]};
     kv := ∅ |}.

End Sample.

(** ** Example requests to the router *)
Module SampleRoutes.

(** The payload of the embedding model: one vector. *)
Definition vectors : json :=
  JObj [("shape", JArr [JNum (1 # 1); JNum (3 # 1)]);
        ("data", JArr [JArr [JNum (1 # 10); JNum (-2 # 10); JNum (3 # 10)]])].

Definition host_embed : World :=
  {| now_get := 3700000; now_set := 3700200; now_put := 3700300;
     iso_put := "1970-01-01T01:01:40.300Z"; iso_now := "1970-01-01T01:01:40.400Z";
     fetch_gist := fun _ _ => FetchResponds 200 (Ok Sample.gist);
     ai_run := fun _ _ => Ok vectors;
     kv_put := fun _ _ => Ok tt |}.

(** The model resolves to [null]. *)
Definition host_null : World :=
  {| now_get := 3700000; now_set := 3700200; now_put := 3700300;
     iso_put := "1970-01-01T01:01:40.300Z"; iso_now := "1970-01-01T01:01:40.400Z";
     fetch_gist := fun _ _ => FetchResponds 200 (Ok Sample.gist);
     ai_run := fun _ _ => Ok JNull;
     kv_put := fun _ _ => Ok tt |}.

Definition no_body : JsError := mkError "Unexpected end of JSON input".

Definition text : json := JStr "Heady AI Workflow Engine".

Definition no_prompt : WorkflowRequest :=
  {| prompt := None; model := None; temperature := None; max_tokens := None |}.

Definition get_health : Request :=
  {| method := "GET"; pathname := "/health";
     json_workflow := Throw no_body; json_embed := Throw no_body |}.

Definition get_workflow : Request :=
  {| method := "GET"; pathname := "/api/workflow";
     json_workflow := Throw no_body; json_embed := Throw no_body |}.

Definition post_workflow : Request :=
  {| method := "POST"; pathname := "/api/workflow";
     json_workflow := Ok Sample.req;
     json_embed := Ok (JObj [("prompt", JStr "Explain X"); ("model", JStr "m1");
                             ("temperature", JNum (9 # 10))]) |}.

Definition post_embed : Request :=
  {| method := "POST"; pathname := "/api/embed";
     json_workflow := Ok no_prompt;
     json_embed := Ok (JObj [("text", text)]) |}.

Definition vars_unset : Vars :=
  {| PROJECT_NAME := None; ENVIRONMENT := Some ""; API_VERSION := None |}.

Definition vars_set : Vars :=
  {| PROJECT_NAME := Some "Heady"; ENVIRONMENT := Some "staging"; API_VERSION := Some "v2" |}.

End SampleRoutes.

(** ** An example of a cache write that fails *)
Module SampleWrites.


End SampleWrites.

(** ** The handler

    [JSON.parse] and [JSON.stringify] are built-ins of the host.
    [JSON_parse] takes the argument as the worker passes it (possibly
    [undefined]) and throws on text that is not JSON. *)
Section Worker.

Variable JSON_parse : option json -> Result json.
Variable JSON_stringify : json -> string.

(** Lines 42-43: the configuration held by the first file of a gist. *)
Definition gist_content (gist : json) : Result json :=
  let? files := member (Some gist) "files" in
  let? vals := Object_values files in
  let? content := member (head vals) "content" in
  JSON_parse content.

(** Lines 26-48. *)
Definition getGistConfig (w : World) (gistId token : string) : M json :=
  try_catch
    (do! emit (EvFetchGist gistId token) in
     match fetch_gist w gistId token with
     | FetchRejects e => throw e
     | FetchResponds status payload =>
         if negb (response_ok status)
         then do! emit (EvLog "Failed to fetch gist:") in ret (JObj [])
         else
           let! gist := lift payload in
           lift (gist_content gist)
     end)
    (fun _ => do! emit (EvLog "Error fetching gist config:") in ret (JObj [])).

Definition default_model : string := "@cf/meta/llama-2-7b-chat-int8".
Definition default_temperature : Q := 7 # 10.
Definition default_max_tokens : Q := 2048 # 1.

(** The defaults of the destructuring pattern, lines 84-89. *)
Definition model_of (req : WorkflowRequest) : string :=
  default default_model (model req).
Definition temperature_of (req : WorkflowRequest) : Q :=
  default default_temperature (temperature req).
Definition max_tokens_of (req : WorkflowRequest) : Q :=
  default default_max_tokens (max_tokens req).

(** [{ prompt, temperature, max_tokens, ...config }], lines 121-126. *)
Definition ai_inputs (p : string) (t mt : Q) (config : json) : gmap string json :=
  spread config
    (<["max_tokens" := JNum mt]>
      (<["temperature" := JNum t]>
        (<["prompt" := JStr p]> ∅))).

(** [env.GIST_ID && env.GITHUB_TOKEN] *)
Definition configured (env : Env) : bool :=
  truthy_str (GIST_ID env) && truthy_str (GITHUB_TOKEN env).

(** Lines 114-118. *)
Definition load_config (env : Env) (w : World) : M json :=
  if configured env
  then getGistConfig w (default "" (GIST_ID env)) (default "" (GITHUB_TOKEN env))
  else ret (JObj []).

(** [aiResponse.response || JSON.stringify(aiResponse)], line 128. *)
Definition result_of (aiResponse : json) : Result json :=
  let? r := member (Some aiResponse) "response" in
  match r with
  | Some x => if truthy x then Ok x else Ok (JStr (JSON_stringify aiResponse))
  | None => Ok (JStr (JSON_stringify aiResponse))
  end.

Definition workflow_record (w : World) (p : string) (result : json) (m : string) : json :=
  JObj [("prompt", JStr p); ("result", result); ("model", JStr m);
        ("timestamp", JStr (iso_put w))].

(** Lines 133-144. *)
Definition store_kv (env : Env) (w : World) (p : string) (result : json) (m : string) : M unit :=
  if CONFIG env
  then
    try_catch
      (let key := "workflow:" +:+ pretty (now_put w) in
       let val := JSON_stringify (workflow_record w p result m) in
       do! emit (EvKvPut key val 86400) in
       let! _ := lift (kv_put w key val) in
       let! k := get_kv in
       put_kv (<[key := val]> k))
      (fun _ => emit (EvLog "KV storage error:"))
  else ret tt.

(** Lines 114-155: the path taken after a cache miss. *)
Definition on_miss (env : Env) (w : World) (key : string)
    (p m : string) (t mt : Q) : M HttpResponse :=
  let! config := load_config env w in
  let inputs := ai_inputs p t mt config in
  do! emit (EvAiRun m inputs) in
  let! aiResponse := lift (ai_run w m inputs) in
  let! result := lift (result_of aiResponse) in
  do! setCache w key result 3600 in
  do! store_kv env w p result m in
  ret {| status := 200; body := WorkflowBody result FromAi m (iso_now w) |}.

(** Lines 84-155: the body of the [try] block once the request body has
    been read. *)
Definition workflow_try (env : Env) (w : World) (req : WorkflowRequest) : M HttpResponse :=
  let m := model_of req in
  let t := temperature_of req in
  let mt := max_tokens_of req in
  match prompt req with
  | None =>
      ret {| status := 400; body := ErrorBody "Prompt is required" None |}
  | Some p =>
      if String.eqb p ""
      then ret {| status := 400; body := ErrorBody "Prompt is required" None |}
      else
        let key := cacheKey m p in
        let! cached := getCached w key in
        match cached with
        | Some v =>
            if truthy v
            then ret {| status := 200; body := WorkflowBody v FromCache m (iso_now w) |}
            else on_miss env w key p m t mt
        | None => on_miss env w key p m t mt
        end
  end.

(** Lines 157-166. *)
Definition workflow_catch (w : World) (e : JsError) : M HttpResponse :=
  do! emit (EvLog "Workflow error:") in
  ret {| status := 500;
         body := ErrorBody
                   (if String.eqb (message e) "" then "Internal server error" else message e)
                   (Some (iso_now w)) |}.

(** The [/api/workflow] branch of [fetch], lines 81-167.  [body] is the
    outcome of [request.json()]. *)
Definition workflow (env : Env) (w : World) (body : Result WorkflowRequest) : M HttpResponse :=
  try_catch
    (let! req := lift body in workflow_try env w req)
    (workflow_catch w).




(** The responses of the workflow branch all carry the JSON headers. *)
Definition json_reply (r : HttpResponse) : Reply :=
  {| code := status r; headers := jsonHeaders; payload := JsonPayload (body r) |}.

(** The worker's [fetch], lines 52-209. *)
Definition fetch (env : Env) (vars : Vars) (w : World) (req : Request) : M Reply :=
  if String.eqb (method req) "OPTIONS"
  then ret preflight
  else if String.eqb (pathname req) "/health" || String.eqb (pathname req) "/"
  then ret (health_check vars w)
  else if String.eqb (pathname req) "/api/workflow" && String.eqb (method req) "POST"
  then let! r := workflow env w (json_workflow req) in ret (json_reply r)
  else if String.eqb (pathname req) "/api/embed" && String.eqb (method req) "POST"
  then embed w (json_embed req)
  else ret not_found.

(** ** Notions used in the statements *)

(** The read of line 100 returns a value that passes [if (cached)]. *)
Definition hit (w : World) (key : string) (st : State) : bool :=
  match outcome (getCached w key st) with
  | Ok (Some v) => truthy v
  | _ => false
  end.

(** The ways in which loading the configuration fails: the fetch rejects,
    the response is not a success, its body is not JSON, or the gist does
    not hold a JSON configuration. *)
Inductive load_failure : FetchOutcome -> Prop :=
| network_error e : load_failure (FetchRejects e)
| non_success s payload : response_ok s = false -> load_failure (FetchResponds s payload)
| malformed_body s e : load_failure (FetchResponds s (Throw e))
| malformed_gist s gist e :
    gist_content gist = Throw e -> load_failure (FetchResponds s (Ok gist)).

(** The states of the worker: the cache is empty when the module is
    loaded and changes only as requests are handled (the other routes of
    [fetch] do not touch it). *)
Inductive reachable : State -> Prop :=
| reachable_start k : reachable {| cache := ∅; kv := k |}
| reachable_request env w body st :
    reachable st -> reachable (final (workflow env w body st)).

(** Every cached value passes [if (cached)]. *)
Definition cache_truthy (st : State) : Prop :=
  forall k item, cache st !! k = Some item -> truthy (value item) = true.

(** The configuration that [load_config] returns and the events it
    records; neither depends on the state (see [load_config_run]). *)
Definition blank : State := {| cache := ∅; kv := ∅ |}.

Definition loaded_config (env : Env) (w : World) : json :=
  match outcome (load_config env w blank) with
  | Ok config => config
  | Throw _ => JObj []
  end.

Definition load_trace (env : Env) (w : World) : list Event :=
  trace (load_config env w blank).

(** The second argument of [env.AI.run] for a request with prompt [p]. *)
Definition model_inputs (env : Env) (w : World) (req : WorkflowRequest) (p : string)
    : gmap string json :=
  ai_inputs p (temperature_of req) (max_tokens_of req) (loaded_config env w).

(** The result obtained from the model for a request with prompt [p]:
    [Throw] when the call rejects or yields no result. *)
Definition model_answer (env : Env) (w : World) (req : WorkflowRequest) (p : string)
    : Result json :=
  let? payload := ai_run w (model_of req) (model_inputs env w req p) in
  result_of payload.

Definition kv_key (w : World) : string := "workflow:" +:+ pretty (now_put w).

Definition ai_body (w : World) (result : json) (m : string) : HttpResponse :=
  {| status := 200; body := WorkflowBody result FromAi m (iso_now w) |}.

Definition cache_body (w : World) (result : json) (m : string) : HttpResponse :=
  {| status := 200; body := WorkflowBody result FromCache m (iso_now w) |}.

Definition bad_request : HttpResponse :=
  {| status := 400; body := ErrorBody "Prompt is required" None |}.

Definition server_error (w : World) (e : JsError) : HttpResponse :=
  {| status := 500;
     body := ErrorBody
               (if String.eqb (message e) "" then "Internal server error" else message e)
               (Some (iso_now w)) |}.

Definition cached_entry (w : World) (result : json) : CacheItem :=
  {| value := result; expiry := now_set w + 3600 * 1000 |}.

Definition is_fetch (ev : Event) : bool :=
  match ev with EvFetchGist _ _ => true | _ => false end.
Definition is_run (ev : Event) : bool :=
  match ev with EvAiRun _ _ => true | _ => false end.
Definition is_set (ev : Event) : bool :=
  match ev with EvSetCache _ _ _ => true | _ => false end.
Definition is_put (ev : Event) : bool :=
  match ev with EvKvPut _ _ _ => true | _ => false end.

(** How many events of a kind a trace holds. *)
Definition count (kind : Event -> bool) (tr : list Event) : nat :=
  length (List.filter kind tr).

(** "A request-level temperature overrides the configuration": every
    model call of the request carries the temperature of the request. *)
Definition request_temperature_overrides (env : Env) (w : World)
    (req : WorkflowRequest) (st : State) : Prop :=
  forall m inputs t,
    EvAiRun m inputs ∈ trace (workflow env w (Ok req) st) ->
    temperature req = Some t ->
    inputs !! "temperature" = Some (JNum t).

(** "The state is unchanged when the model call errors". *)
Definition error_leaves_state (env : Env) (w : World)
    (req : WorkflowRequest) (st : State) : Prop :=
  forall p e,
    reachable st ->
    prompt req = Some p -> p ≠ "" ->
    hit w (cacheKey (model_of req) p) st = false ->
    ai_run w (model_of req) (model_inputs env w req p) = Throw e ->
    final (workflow env w (Ok req) st) = st.


(** The outer [catch] applied to the result of the [try] block. *)
Definition settle (w : World) (r : Result HttpResponse * State * list Event)
    : Result HttpResponse * State * list Event :=
  match r with
  | (Ok a, st, t) => (Ok a, st, t)
  | (Throw e, st, t) => (Ok (server_error w e), st, t ++ [EvLog "Workflow error:"])
  end.

(** The five ways in which a request to the workflow route runs. *)
Inductive workflow_run (env : Env) (w : World) (st : State)
    : Result WorkflowRequest -> Result HttpResponse * State * list Event -> Prop :=
| run_unreadable e :
    workflow_run env w st (Throw e)
      (Ok (server_error w e), st, [EvLog "Workflow error:"])
| run_invalid req :
    truthy_str (prompt req) = false ->
    workflow_run env w st (Ok req) (Ok bad_request, st, [])
| run_hit req p item :
    prompt req = Some p -> p ≠ "" ->
    cache st !! cacheKey (model_of req) p = Some item ->
    now_get w <= expiry item ->
    truthy (value item) = true ->
    workflow_run env w st (Ok req)
      (Ok (cache_body w (value item) (model_of req)), st,
       [EvGetCached (cacheKey (model_of req) p)])
| run_error req p e :
    prompt req = Some p -> p ≠ "" ->
    hit w (cacheKey (model_of req) p) st = false ->
    model_answer env w req p = Throw e ->
    workflow_run env w st (Ok req)
      (Ok (server_error w e),
       final (getCached w (cacheKey (model_of req) p) st),
       EvGetCached (cacheKey (model_of req) p) ::
         load_trace env w ++
         [EvAiRun (model_of req) (model_inputs env w req p); EvLog "Workflow error:"])
| run_answer req p result st' tr' :
    prompt req = Some p -> p ≠ "" ->
    hit w (cacheKey (model_of req) p) st = false ->
    model_answer env w req p = Ok result ->
    store_kv env w p result (model_of req)
      (with_cache (final (getCached w (cacheKey (model_of req) p) st))
         (<[cacheKey (model_of req) p := cached_entry w result]>
            (cache (final (getCached w (cacheKey (model_of req) p) st)))))
      = (Ok tt, st', tr') ->
    workflow_run env w st (Ok req)
      (Ok (ai_body w result (model_of req)), st',
       EvGetCached (cacheKey (model_of req) p) ::
         load_trace env w ++
         [EvAiRun (model_of req) (model_inputs env w req p);
          EvSetCache (cacheKey (model_of req) p) result 3600] ++ tr').

Definition text_required : Reply :=
  {| code := 400; headers := jsonHeaders;
     payload := JsonPayload (ErrorBody "Text is required" None) |}.

Definition embed_error (e : JsError) : Reply :=
  {| code := 500; headers := jsonHeaders;
     payload := JsonPayload (ErrorBody (message e) None) |}.

Definition embed_reply (w : World) (first : option json) : Reply :=
  {| code := 200; headers := jsonHeaders; payload := EmbedPayload first (iso_now w) |}.

(** The second argument of [env.AI.run] on the embed route. *)
Definition embed_inputs (t : json) : gmap string json := {[ "text" := t ]}.

(** The calls that a trace records, without the log lines. *)
Inductive Call : Type := CallGet | CallFetch | CallRun | CallSet | CallPut.

Definition call_of (ev : Event) : option Call :=
  match ev with
  | EvGetCached _ => Some CallGet
  | EvFetchGist _ _ => Some CallFetch
  | EvAiRun _ _ => Some CallRun
  | EvSetCache _ _ _ => Some CallSet
  | EvKvPut _ _ _ => Some CallPut
  | EvLog _ => None
  end.

Definition calls (tr : list Event) : list Call := omap call_of tr.

(** ** Properties *)

(** [JSON.stringify] of a value never yields the empty text. *)
Hypothesis stringify_nonempty : forall v, JSON_stringify v ≠ "".

Arguments cacheKey : simpl never.
Arguments ai_inputs : simpl never.
Arguments workflow_record : simpl never.

(** *** Object spread *)

Lemma foldl_insert_lookup (l : list (string * json)) (m : gmap string json) (k : string) :
  foldl assign m l !! k =
  match foldl assign ∅ l !! k with
  | Some x => Some x
  | None => m !! k
  end.
Proof.
  revert m. induction l as [|[k' x] l IH]; intros m; simpl.
  - by rewrite lookup_empty.
  - rewrite (IH (assign m (k', x))), (IH (assign ∅ (k', x))).
    destruct (foldl assign ∅ l !! k); [done|].
    unfold assign; simpl.
    destruct (decide (k' = k)) as [->|Hne].
    + by rewrite !lookup_insert_eq.
    + by rewrite !lookup_insert_ne, lookup_empty.
Qed.

(** A spread property replaces the property of the same name written
    before it; the other properties stay. *)
Lemma spread_lookup (v : json) (m : gmap string json) (k : string) :
  spread v m !! k =
  match props v !! k with
  | Some x => Some x
  | None => m !! k
  end.
Proof. apply foldl_insert_lookup. Qed.

Lemma props_empty_object (k : string) : props (JObj []) !! k = None.
Proof. apply lookup_empty. Qed.

Lemma spread_empty_object (m : gmap string json) : spread (JObj []) m = m.
Proof. reflexivity. Qed.

(** *** The cache *)

Lemma getCached_absent w key st :
  cache st !! key = None ->
  getCached w key st = (Ok None, st, [EvGetCached key]).
Proof.
  intros H. unfold getCached, bind, emit, get_cache, ret. simpl. by rewrite H.
Qed.

Lemma getCached_expired w key st item :
  cache st !! key = Some item ->
  expiry item < now_get w ->
  getCached w key st =
    (Ok None, with_cache st (delete key (cache st)), [EvGetCached key]).
Proof.
  intros H Hlt. unfold getCached, bind, emit, get_cache, put_cache, ret. simpl.
  rewrite H. destruct (Z.gtb_spec (now_get w) (expiry item)); [done | lia].
Qed.

Lemma getCached_fresh w key st item :
  cache st !! key = Some item ->
  now_get w <= expiry item ->
  getCached w key st = (Ok (Some (value item)), st, [EvGetCached key]).
Proof.
  intros H Hle. unfold getCached, bind, emit, get_cache, ret. simpl.
  rewrite H. destruct (Z.gtb_spec (now_get w) (expiry item)); [lia | done].
Qed.

Lemma setCache_run w key v ttl st :
  setCache w key v ttl st =
    (Ok tt,
     with_cache st (<[key := {| value := v; expiry := now_set w + ttl * 1000 |}]> (cache st)),
     [EvSetCache key v ttl]).
Proof. reflexivity. Qed.

(** Whatever the outcome, a read leaves the other keys alone and records
    one event. *)
Lemma getCached_trace w key st : trace (getCached w key st) = [EvGetCached key].
Proof.
  unfold getCached, bind, emit, get_cache, put_cache, ret, trace. simpl.
  destruct (cache st !! key) as [item|]; [|done].
  by destruct (now_get w >? expiry item).
Qed.

(** *** The configuration loader *)

Lemma getGistConfig_loaded w g t st s gist config :
  fetch_gist w g t = FetchResponds s (Ok gist) ->
  response_ok s = true ->
  gist_content gist = Ok config ->
  getGistConfig w g t st = (Ok config, st, [EvFetchGist g t]).
Proof.
  intros Hf Hs Hc. unfold getGistConfig, try_catch, bind, emit, lift, ret. simpl.
  rewrite Hf, Hs. simpl. by rewrite Hc.
Qed.

Lemma getGistConfig_failed w g t st :
  load_failure (fetch_gist w g t) ->
  exists label,
    getGistConfig w g t st = (Ok (JObj []), st, [EvFetchGist g t; EvLog label]).
Proof.
  intros Hf. unfold getGistConfig, try_catch, bind, emit, lift, ret, throw. simpl.
  inversion Hf as [e He | s payload Hs He | s e He | s gist e Hc He].
  - by eexists.
  - rewrite Hs. by eexists.
  - destruct (response_ok s); by eexists.
  - destruct (response_ok s); simpl; [rewrite Hc|]; by eexists.
Qed.

(** Loading never throws and never touches the state; it fetches at most
    once. *)
Lemma getGistConfig_total w g t :
  exists config logs,
    (forall st, getGistConfig w g t st = (Ok config, st, EvFetchGist g t :: logs)) /\
    (forall ev, ev ∈ logs -> exists label, ev = EvLog label).
Proof.
  unfold getGistConfig, try_catch, bind, emit, lift, ret, throw. simpl.
  destruct (fetch_gist w g t) as [e | s [gist | e]]; simpl.
  - exists (JObj []), [EvLog "Error fetching gist config:"]. split; [done|].
    intros ev ->%list_elem_of_singleton. by eexists.
  - destruct (response_ok s); simpl.
    + destruct (gist_content gist) as [config | e].
      * exists config, []. split; [done|]. by intros ev ?%elem_of_nil.
      * exists (JObj []), [EvLog "Error fetching gist config:"]. split; [done|].
        intros ev ->%list_elem_of_singleton. by eexists.
    + exists (JObj []), [EvLog "Failed to fetch gist:"]. split; [done|].
      intros ev ->%list_elem_of_singleton. by eexists.
  - destruct (response_ok s); simpl.
    + exists (JObj []), [EvLog "Error fetching gist config:"]. split; [done|].
      intros ev ->%list_elem_of_singleton. by eexists.
    + exists (JObj []), [EvLog "Failed to fetch gist:"]. split; [done|].
      intros ev ->%list_elem_of_singleton. by eexists.
Qed.

Lemma load_config_unset env w st :
  configured env = false ->
  load_config env w st = (Ok (JObj []), st, []).
Proof. intros H. unfold load_config. by rewrite H. Qed.

Lemma load_config_total env w :
  exists config tr, forall st, load_config env w st = (Ok config, st, tr).
Proof.
  unfold load_config. destruct (configured env).
  - destruct (getGistConfig_total w (default "" (GIST_ID env))
                (default "" (GITHUB_TOKEN env))) as (config & logs & Hrun & _).
    by exists config, (EvFetchGist (default "" (GIST_ID env))
                         (default "" (GITHUB_TOKEN env)) :: logs).
  - by exists (JObj []), [].
Qed.

(** *** The ledger write *)

Lemma store_kv_unbound env w p result m st :
  CONFIG env = false -> store_kv env w p result m st = (Ok tt, st, []).
Proof. intros H. unfold store_kv. by rewrite H. Qed.

Lemma store_kv_stored env w p result m st :
  CONFIG env = true ->
  kv_put w (kv_key w) (JSON_stringify (workflow_record w p result m)) = Ok tt ->
  store_kv env w p result m st =
    (Ok tt,
     with_kv st (<[kv_key w := JSON_stringify (workflow_record w p result m)]> (kv st)),
     [EvKvPut (kv_key w) (JSON_stringify (workflow_record w p result m)) 86400]).
Proof.
  intros H Hput. unfold store_kv, try_catch, bind, emit, lift, get_kv, put_kv, kv_key in *.
  rewrite H. simpl. by rewrite Hput.
Qed.

Lemma store_kv_swallowed env w p result m st e :
  CONFIG env = true ->
  kv_put w (kv_key w) (JSON_stringify (workflow_record w p result m)) = Throw e ->
  store_kv env w p result m st =
    (Ok tt, st,
     [EvKvPut (kv_key w) (JSON_stringify (workflow_record w p result m)) 86400;
      EvLog "KV storage error:"]).
Proof.
  intros H Hput. unfold store_kv, try_catch, bind, emit, lift, get_kv, put_kv, kv_key in *.
  rewrite H. simpl. by rewrite Hput.
Qed.

(** The ledger write never throws and leaves the cache alone. *)
Lemma store_kv_total env w p result m st :
  exists st' tr,
    store_kv env w p result m st = (Ok tt, st', tr) /\ cache st' = cache st.
Proof.
  destruct (CONFIG env) eqn:H.
  - destruct (kv_put w (kv_key w) (JSON_stringify (workflow_record w p result m)))
      as [[]|e] eqn:Hput.
    + eexists _, _. split; [by apply store_kv_stored|done].
    + eexists _, _. split; [by eapply store_kv_swallowed|done].
  - eexists _, _. split; [by apply store_kv_unbound|done].
Qed.

(** *** The miss path *)

Lemma on_miss_rejected env w key p m t mt st config tr e :
  (forall st, load_config env w st = (Ok config, st, tr)) ->
  ai_run w m (ai_inputs p t mt config) = Throw e ->
  on_miss env w key p m t mt st =
    (Throw e, st, tr ++ [EvAiRun m (ai_inputs p t mt config)]).
Proof.
  intros Hc Hrun. unfold on_miss, bind. rewrite Hc. unfold emit, lift. simpl.
  by rewrite Hrun.
Qed.

Lemma on_miss_no_result env w key p m t mt st config tr payload e :
  (forall st, load_config env w st = (Ok config, st, tr)) ->
  ai_run w m (ai_inputs p t mt config) = Ok payload ->
  result_of payload = Throw e ->
  on_miss env w key p m t mt st =
    (Throw e, st, tr ++ [EvAiRun m (ai_inputs p t mt config)]).
Proof.
  intros Hc Hrun Hres. unfold on_miss, bind. rewrite Hc. unfold emit, lift. simpl.
  rewrite Hrun. simpl. by rewrite Hres.
Qed.

Lemma on_miss_answered env w key p m t mt st config tr payload result st' tr' :
  (forall st, load_config env w st = (Ok config, st, tr)) ->
  ai_run w m (ai_inputs p t mt config) = Ok payload ->
  result_of payload = Ok result ->
  store_kv env w p result m
    (with_cache st (<[key := cached_entry w result]> (cache st))) = (Ok tt, st', tr') ->
  on_miss env w key p m t mt st =
    (Ok (ai_body w result m), st',
     tr ++ [EvAiRun m (ai_inputs p t mt config); EvSetCache key result 3600] ++ tr').
Proof.
  intros Hc Hrun Hres Hkv. unfold on_miss, bind. rewrite Hc. unfold emit, lift. simpl.
  rewrite Hrun. simpl. rewrite Hres. simpl.
  unfold cached_entry in Hkv. unfold with_cache in *. simpl in *.
  rewrite Hkv. simpl. by rewrite app_nil_r.
Qed.

(** *** The handler as a whole *)

Lemma workflow_settle env w req st :
  workflow env w (Ok req) st = settle w (workflow_try env w req st).
Proof.
  unfold workflow, try_catch, bind, lift, ret, settle, workflow_catch, emit. simpl.
  destruct (workflow_try env w req st) as [[[a|e] st1] t1]; simpl.
  - done.
  - done.
Qed.

Lemma load_config_run env w st :
  load_config env w st = (Ok (loaded_config env w), st, load_trace env w).
Proof.
  destruct (load_config_total env w) as (config & tr & H).
  unfold loaded_config, load_trace. by rewrite (H st), (H blank).
Qed.

Lemma count_app kind (t1 t2 : list Event) :
  count kind (t1 ++ t2) = (count kind t1 + count kind t2)%nat.
Proof. unfold count. by rewrite List.filter_app, length_app. Qed.

Lemma count_logs kind (logs : list Event) :
  (forall label, kind (EvLog label) = false) ->
  (forall ev, ev ∈ logs -> exists label, ev = EvLog label) ->
  count kind logs = 0%nat.
Proof.
  intros Hkind. induction logs as [|ev logs IH]; intros Hlogs; [done|].
  destruct (Hlogs ev) as [label ->]; [by left|].
  unfold count in *. simpl. rewrite Hkind. apply IH.
  intros ev' Hin. apply Hlogs. by right.
Qed.

(** Loading the configuration fetches at most once and does nothing else
    that is observable besides logging. *)
Lemma load_trace_counts env w :
  (count is_fetch (load_trace env w) <= 1)%nat /\
  count is_run (load_trace env w) = 0%nat /\
  count is_set (load_trace env w) = 0%nat /\
  count is_put (load_trace env w) = 0%nat.
Proof.
  unfold load_trace, load_config. destruct (configured env); [|by compute; auto].
  destruct (getGistConfig_total w (default "" (GIST_ID env))
              (default "" (GITHUB_TOKEN env))) as (config & logs & Hrun & Hlogs).
  rewrite Hrun. unfold trace. simpl.
  change (EvFetchGist ?g ?t :: logs) with ([EvFetchGist g t] ++ logs).
  rewrite !count_app, !(count_logs _ logs) by done.
  compute. auto.
Qed.

Lemma workflow_invalid env w req st :
  truthy_str (prompt req) = false ->
  workflow env w (Ok req) st = (Ok bad_request, st, []).
Proof.
  intros H. rewrite workflow_settle. unfold workflow_try.
  destruct (prompt req) as [p|]; [|done].
  simpl in H. apply negb_false_iff in H. by rewrite H.
Qed.

Lemma nonempty_eqb (p : string) : p ≠ "" -> String.eqb p "" = false.
Proof. intros H. by apply String.eqb_neq. Qed.

Lemma workflow_hit env w req st p v st1 t1 :
  prompt req = Some p -> p ≠ "" ->
  getCached w (cacheKey (model_of req) p) st = (Ok (Some v), st1, t1) ->
  truthy v = true ->
  workflow env w (Ok req) st = (Ok (cache_body w v (model_of req)), st1, t1).
Proof.
  intros Hp Hne Hget Hv. rewrite workflow_settle. unfold workflow_try.
  rewrite Hp, (nonempty_eqb p Hne). unfold bind. rewrite Hget, Hv.
  unfold ret, settle. simpl. by rewrite app_nil_r.
Qed.

Lemma getCached_cases w key st :
  (cache st !! key = None /\
   getCached w key st = (Ok None, st, [EvGetCached key])) \/
  (exists item, cache st !! key = Some item /\ expiry item < now_get w /\
     getCached w key st =
       (Ok None, with_cache st (delete key (cache st)), [EvGetCached key])) \/
  (exists item, cache st !! key = Some item /\ now_get w <= expiry item /\
     getCached w key st = (Ok (Some (value item)), st, [EvGetCached key])).
Proof.
  destruct (cache st !! key) as [item|] eqn:H.
  - destruct (Z.lt_ge_cases (expiry item) (now_get w)).
    + right; left. exists item. eauto using getCached_expired.
    + right; right. exists item. eauto using getCached_fresh.
  - left. eauto using getCached_absent.
Qed.

(** On a miss the read returns without throwing, having recorded itself. *)
Lemma miss_read w key st :
  hit w key st = false ->
  exists cached,
    getCached w key st = (Ok cached, final (getCached w key st), [EvGetCached key]) /\
    truthy_opt cached = false.
Proof.
  unfold hit, outcome, final. intros H.
  destruct (getCached_cases w key st)
    as [[_ Hg] | [(item & _ & _ & Hg) | (item & _ & _ & Hg)]];
    rewrite Hg in *; simpl in *; eauto.
Qed.

Lemma workflow_miss env w req st p :
  prompt req = Some p -> p ≠ "" ->
  hit w (cacheKey (model_of req) p) st = false ->
  workflow env w (Ok req) st =
    settle w
      (match on_miss env w (cacheKey (model_of req) p) p (model_of req)
               (temperature_of req) (max_tokens_of req)
               (final (getCached w (cacheKey (model_of req) p) st)) with
       | (r, st2, t2) => (r, st2, EvGetCached (cacheKey (model_of req) p) :: t2)
       end).
Proof.
  intros Hp Hne Hmiss. rewrite workflow_settle. f_equal. unfold workflow_try.
  rewrite Hp, (nonempty_eqb p Hne). unfold bind.
  destruct (miss_read _ _ _ Hmiss) as (cached & Hg & Hc). rewrite Hg.
  destruct cached as [v|]; simpl in Hc; [rewrite Hc|]; by destruct (on_miss _ _ _ _ _ _ _ _) as [[??]?].
Qed.

(** A miss on which the model gives no result: the call rejected, or it
    resolved to [null]. *)
Lemma workflow_miss_error env w req st p e :
  prompt req = Some p -> p ≠ "" ->
  hit w (cacheKey (model_of req) p) st = false ->
  model_answer env w req p = Throw e ->
  workflow env w (Ok req) st =
    (Ok (server_error w e),
     final (getCached w (cacheKey (model_of req) p) st),
     EvGetCached (cacheKey (model_of req) p) ::
       load_trace env w ++
       [EvAiRun (model_of req) (model_inputs env w req p); EvLog "Workflow error:"]).
Proof.
  intros Hp Hne Hmiss Hans. rewrite (workflow_miss _ _ _ _ p) by done.
  unfold model_answer, and_then, model_inputs in *.
  destruct (ai_run w _ _) as [payload|e'] eqn:Hrun.
  - erewrite on_miss_no_result by eauto using load_config_run.
    simpl. by rewrite <- app_assoc.
  - injection Hans as ->.
    erewrite on_miss_rejected by eauto using load_config_run.
    simpl. by rewrite <- app_assoc.
Qed.

(** A miss on which the model gives [result]. *)
Lemma workflow_miss_answer env w req st p result :
  prompt req = Some p -> p ≠ "" ->
  hit w (cacheKey (model_of req) p) st = false ->
  model_answer env w req p = Ok result ->
  exists st' tr',
    store_kv env w p result (model_of req)
      (with_cache (final (getCached w (cacheKey (model_of req) p) st))
         (<[cacheKey (model_of req) p := cached_entry w result]>
            (cache (final (getCached w (cacheKey (model_of req) p) st)))))
      = (Ok tt, st', tr') /\
    workflow env w (Ok req) st =
      (Ok (ai_body w result (model_of req)), st',
       EvGetCached (cacheKey (model_of req) p) ::
         load_trace env w ++
         [EvAiRun (model_of req) (model_inputs env w req p);
          EvSetCache (cacheKey (model_of req) p) result 3600] ++ tr').
Proof.
  intros Hp Hne Hmiss Hans. rewrite (workflow_miss _ _ _ _ p) by done.
  unfold model_answer, and_then, model_inputs in *.
  destruct (ai_run w _ _) as [payload|e'] eqn:Hrun; [|done].
  edestruct (store_kv_total env w p result (model_of req)) as (st' & tr' & Hkv & _).
  exists st', tr'. split; [exact Hkv|].
  erewrite on_miss_answered by eauto using load_config_run. done.
Qed.

Lemma workflow_unreadable env w e st :
  workflow env w (Throw e) st = (Ok (server_error w e), st, [EvLog "Workflow error:"]).
Proof. reflexivity. Qed.

(** *** Cached values are truthy *)

Lemma result_of_truthy payload result :
  result_of payload = Ok result -> truthy result = true.
Proof.
  unfold result_of, and_then, member.
  assert (truthy (JStr (JSON_stringify payload)) = true) as Hs.
  { simpl. apply negb_true_iff, String.eqb_neq, stringify_nonempty. }
  destruct payload; try done;
    (destruct (props _ !! "response") as [x|];
     [destruct (truthy x) eqn:Hx|]; intros [= <-]; done).
Qed.

Lemma getCached_keeps_truthy w key st :
  cache_truthy st -> cache_truthy (final (getCached w key st)).
Proof.
  intros Hst.
  destruct (getCached_cases w key st)
    as [[_ Hg] | [(item & _ & _ & Hg) | (item & _ & _ & Hg)]];
    rewrite Hg; unfold final; simpl; try done.
  intros k it Hk. simpl in Hk. apply lookup_delete_Some in Hk as [_ Hk]. by eapply Hst.
Qed.

Lemma workflow_keeps_truthy env w body st :
  cache_truthy st -> cache_truthy (final (workflow env w body st)).
Proof.
  intros Hst. destruct body as [req|e]; [|by rewrite workflow_unreadable].
  destruct (truthy_str (prompt req)) eqn:Hp; [|by rewrite workflow_invalid].
  destruct (prompt req) as [p|] eqn:Hprompt; [|done].
  simpl in Hp. apply negb_true_iff, String.eqb_neq in Hp.
  destruct (hit w (cacheKey (model_of req) p) st) eqn:Hhit.
  - pose proof (getCached_keeps_truthy w (cacheKey (model_of req) p) st Hst) as Hread.
    unfold hit, outcome in Hhit. unfold final in Hread.
    destruct (getCached w _ st) as [[[[v|]|e] st1] t1] eqn:Hg; try done.
    by erewrite workflow_hit by eauto.
  - destruct (model_answer env w req p) as [result|e] eqn:Hans.
    + destruct (workflow_miss_answer env w req st p result) as (st' & tr' & Hkv & ->);
        [done..|].
      destruct (store_kv_total env w p result (model_of req)
                  (with_cache (final (getCached w (cacheKey (model_of req) p) st))
                     (<[cacheKey (model_of req) p := cached_entry w result]>
                        (cache (final (getCached w (cacheKey (model_of req) p) st))))))
        as (st2 & tr2 & Hkv2 & Hcache).
      rewrite Hkv in Hkv2. injection Hkv2 as <- <-.
      unfold final at 1; simpl. intros k it. rewrite Hcache. simpl.
      intros [[_ <-]|[_ Hk]]%lookup_insert_Some.
      * simpl. unfold model_answer, and_then in Hans.
        destruct (ai_run w _ _) as [payload|]; [|done].
        by eapply result_of_truthy.
      * by eapply (getCached_keeps_truthy w _ st Hst).
    + erewrite workflow_miss_error by eauto.
      by apply getCached_keeps_truthy.
Qed.

Lemma reachable_truthy st : reachable st -> cache_truthy st.
Proof.
  induction 1 as [k | env w body st _ IH].
  - intros key item. simpl. by rewrite lookup_empty.
  - by apply workflow_keeps_truthy.
Qed.

(** *** Counting events *)

Lemma count_cons kind ev (tr : list Event) :
  count kind (ev :: tr) = ((if kind ev then 1 else 0) + count kind tr)%nat.
Proof. unfold count. simpl. by destruct (kind ev). Qed.

Lemma count_nil kind : count kind [] = 0%nat.
Proof. reflexivity. Qed.

Ltac count_events := rewrite ?count_cons, ?count_app, ?count_cons, ?count_nil; simpl.

Lemma store_kv_counts env w p result m st :
  count is_fetch (trace (store_kv env w p result m st)) = 0%nat /\
  count is_run (trace (store_kv env w p result m st)) = 0%nat /\
  count is_set (trace (store_kv env w p result m st)) = 0%nat.
Proof.
  destruct (CONFIG env) eqn:H.
  - destruct (kv_put w (kv_key w) (JSON_stringify (workflow_record w p result m)))
      as [[]|e] eqn:Hput.
    + by rewrite store_kv_stored.
    + by erewrite store_kv_swallowed.
  - by rewrite store_kv_unbound.
Qed.

(** On a miss the model is called exactly once, whatever happens next,
    and the configuration is fetched as often as [load_config] does. *)
Lemma miss_counts env w req st p :
  prompt req = Some p -> p ≠ "" ->
  hit w (cacheKey (model_of req) p) st = false ->
  count is_run (trace (workflow env w (Ok req) st)) = 1%nat /\
  count is_fetch (trace (workflow env w (Ok req) st)) = count is_fetch (load_trace env w) /\
  EvAiRun (model_of req) (model_inputs env w req p) ∈ trace (workflow env w (Ok req) st).
Proof.
  intros Hp Hne Hmiss.
  destruct (load_trace_counts env w) as (_ & Hrun & _).
  destruct (model_answer env w req p) as [result|e] eqn:Hans.
  - destruct (workflow_miss_answer env w req st p result) as (st' & tr' & Hkv & ->);
      [done..|].
    pose proof (store_kv_counts env w p result (model_of req)
      (with_cache (final (getCached w (cacheKey (model_of req) p) st))
         (<[cacheKey (model_of req) p := cached_entry w result]>
            (cache (final (getCached w (cacheKey (model_of req) p) st))))))
      as (Hf & Hr & _).
    rewrite Hkv in Hf, Hr. unfold trace in *. simpl in *.
    split; [|split].
    + count_events. rewrite Hrun, Hr. done.
    + count_events. rewrite Hf. lia.
    + right. apply elem_of_app. right. by left.
  - erewrite workflow_miss_error by eauto. unfold trace. simpl.
    split; [|split].
    + count_events. by rewrite Hrun.
    + count_events. lia.
    + right. apply elem_of_app. right. by left.
Qed.

Lemma workflow_reads_key env w req st p :
  prompt req = Some p -> p ≠ "" ->
  head (trace (workflow env w (Ok req) st)) = Some (EvGetCached (cacheKey (model_of req) p)).
Proof.
  intros Hp Hne. destruct (hit w (cacheKey (model_of req) p) st) eqn:Hhit.
  - pose proof (getCached_trace w (cacheKey (model_of req) p) st) as Ht.
    unfold hit, outcome in Hhit. unfold trace in Ht.
    destruct (getCached w _ st) as [[[[v|]|e] st1] t1] eqn:Hg; try done.
    simpl in Ht. subst t1. by erewrite workflow_hit by eauto.
  - destruct (model_answer env w req p) as [result|e] eqn:Hans.
    + by destruct (workflow_miss_answer env w req st p result)
        as (st' & tr' & Hkv & ->).
    + by erewrite workflow_miss_error by eauto.
Qed.

(** *** What a request leaves behind *)

Lemma getCached_kv w key st : kv (final (getCached w key st)) = kv st.
Proof.
  destruct (getCached_cases w key st)
    as [[_ Hg] | [(item & _ & _ & Hg) | (item & _ & _ & Hg)]]; by rewrite Hg.
Qed.

Lemma getCached_final w key st :
  final (getCached w key st) = st \/
  exists item, cache st !! key = Some item /\ expiry item < now_get w /\
    final (getCached w key st) = with_cache st (delete key (cache st)).
Proof.
  destruct (getCached_cases w key st)
    as [[_ Hg] | [(item & ? & ? & Hg) | (item & _ & _ & Hg)]]; rewrite Hg; eauto.
Qed.

(** A miss answered by the model: the response carries the result, the
    result is cached under the key, and the cache write is recorded
    once. *)
Lemma miss_answer_cached env w req st p result :
  prompt req = Some p -> p ≠ "" ->
  hit w (cacheKey (model_of req) p) st = false ->
  model_answer env w req p = Ok result ->
  outcome (workflow env w (Ok req) st) = Ok (ai_body w result (model_of req)) /\
  cache (final (workflow env w (Ok req) st)) =
    <[cacheKey (model_of req) p := cached_entry w result]>
      (cache (final (getCached w (cacheKey (model_of req) p) st))) /\
  count is_set (trace (workflow env w (Ok req) st)) = 1%nat.
Proof.
  intros Hp Hne Hmiss Hans.
  destruct (workflow_miss_answer env w req st p result) as (st' & tr' & Hkv & ->);
    [done..|].
  edestruct store_kv_total as (st2 & tr2 & Hkv2 & Hcache).
  pose proof (store_kv_counts env w p result (model_of req)
    (with_cache (final (getCached w (cacheKey (model_of req) p) st))
       (<[cacheKey (model_of req) p := cached_entry w result]>
          (cache (final (getCached w (cacheKey (model_of req) p) st))))))
    as (_ & _ & Hset).
  rewrite Hkv in Hkv2, Hset. injection Hkv2 as <- <-.
  destruct (load_trace_counts env w) as (_ & _ & Hlset & _).
  split; [done|]. split; [unfold final at 1; simpl; by rewrite Hcache|].
  unfold trace in *. simpl in *. count_events. by rewrite Hlset, Hset.
Qed.

(** A miss without a result: nothing is cached, nothing is put. *)
Lemma miss_error_counts env w req st p e :
  prompt req = Some p -> p ≠ "" ->
  hit w (cacheKey (model_of req) p) st = false ->
  model_answer env w req p = Throw e ->
  count is_set (trace (workflow env w (Ok req) st)) = 0%nat /\
  count is_put (trace (workflow env w (Ok req) st)) = 0%nat.
Proof.
  intros Hp Hne Hmiss Hans. erewrite workflow_miss_error by eauto.
  destruct (load_trace_counts env w) as (_ & _ & Hset & Hput).
  unfold trace. simpl. split; count_events; by rewrite ?Hset, ?Hput.
Qed.

(** The three properties that the handler writes itself. *)
Lemma ai_inputs_lookup p t mt config k :
  ai_inputs p t mt config !! k =
  match props config !! k with
  | Some v => Some v
  | None =>
      if decide (k = "max_tokens") then Some (JNum mt)
      else if decide (k = "temperature") then Some (JNum t)
      else if decide (k = "prompt") then Some (JStr p)
      else None
  end.
Proof.
  unfold ai_inputs. rewrite spread_lookup.
  destruct (props config !! k); [done|].
  repeat case_decide; subst;
    rewrite ?lookup_insert_eq, ?lookup_insert_ne, ?lookup_empty by done; done.
Qed.

(** *** The claims *)

(** C3: a request whose prompt is missing or empty is answered with
    status 400 ("Prompt is required") whatever its other fields, the
    environment and the host are; nothing is called (the trace is empty:
    no cache read, no fetch, no model run, no KV write) and the state is
    the one before the request. *)
Theorem invalid_prompt_rejected env w req st :
  prompt req = None \/ prompt req = Some "" ->
  outcome (workflow env w (Ok req) st) = Ok bad_request /\
  status bad_request = 400 /\
  trace (workflow env w (Ok req) st) = [] /\
  final (workflow env w (Ok req) st) = st.
Proof.
  intros H. rewrite workflow_invalid; [done|].
  by destruct H as [-> | ->].
Qed.

(** C5: the cache key is [cacheKey] of the model name and the prompt,
    which looks at the first 50 characters of the prompt only.  Two
    requests with the same model name whose prompts agree on these 50
    characters derive the same key, and the key that the handler reads is
    this one in every environment, on every host (clock included) and in
    every state. *)
Theorem cache_key_prefix env1 w1 st1 env2 w2 st2 req1 req2 p1 p2 :
  prompt req1 = Some p1 -> p1 ≠ "" ->
  prompt req2 = Some p2 -> p2 ≠ "" ->
  model_of req1 = model_of req2 ->
  String.substring 0 50 p1 = String.substring 0 50 p2 ->
  cacheKey (model_of req1) p1 = cacheKey (model_of req2) p2 /\
  head (trace (workflow env1 w1 (Ok req1) st1))
    = Some (EvGetCached (cacheKey (model_of req1) p1)) /\
  head (trace (workflow env2 w2 (Ok req2) st2))
    = Some (EvGetCached (cacheKey (model_of req1) p1)).
Proof.
  intros Hp1 Hne1 Hp2 Hne2 Hm Hprefix.
  assert (cacheKey (model_of req1) p1 = cacheKey (model_of req2) p2) as Hkey.
  { unfold cacheKey. by rewrite Hm, Hprefix. }
  split; [done|]. split.
  - by apply workflow_reads_key.
  - rewrite Hkey. by apply workflow_reads_key.
Qed.

(** C2: in a state of the worker whose cache holds an entry under the
    derived key that has not expired, a request with a non-empty prompt
    is answered with status 200, the cached value as it is stored and
    source "cache".  The only event is the cache read: no gist fetch, no
    model run, no KV write; the state is unchanged. *)
Theorem cached_entry_served env w req st p item :
  reachable st ->
  prompt req = Some p -> p ≠ "" ->
  cache st !! cacheKey (model_of req) p = Some item ->
  now_get w <= expiry item ->
  outcome (workflow env w (Ok req) st) = Ok (cache_body w (value item) (model_of req)) /\
  trace (workflow env w (Ok req) st) = [EvGetCached (cacheKey (model_of req) p)] /\
  final (workflow env w (Ok req) st) = st.
Proof.
  intros Hreach Hp Hne Hitem Hfresh.
  erewrite workflow_hit; eauto using getCached_fresh.
  by eapply (reachable_truthy st Hreach).
Qed.

(** C9: when the model resolves with a payload whose [response]
    property is falsy (absent, or the empty string), the result that is
    returned and cached is the JSON serialization of the whole payload. *)
Theorem falsy_response_serialized env w req st p payload :
  prompt req = Some p -> p ≠ "" ->
  hit w (cacheKey (model_of req) p) st = false ->
  ai_run w (model_of req) (model_inputs env w req p) = Ok payload ->
  payload ≠ JNull ->
  truthy_opt (props payload !! "response") = false ->
  result_of payload = Ok (JStr (JSON_stringify payload)) /\
  outcome (workflow env w (Ok req) st)
    = Ok (ai_body w (JStr (JSON_stringify payload)) (model_of req)) /\
  cache (final (workflow env w (Ok req) st)) !! cacheKey (model_of req) p
    = Some (cached_entry w (JStr (JSON_stringify payload))).
Proof.
  intros Hp Hne Hmiss Hrun Hnull Hfalsy.
  assert (result_of payload = Ok (JStr (JSON_stringify payload))) as Hres.
  { unfold result_of, and_then, member.
    destruct payload; try done;
      (destruct (props _ !! "response") as [x|]; [|done];
       simpl in Hfalsy; by rewrite Hfalsy). }
  split; [done|].
  destruct (workflow_miss_answer env w req st p (JStr (JSON_stringify payload)))
    as (st' & tr' & Hkv & ->); [done..| |].
  { unfold model_answer, and_then. by rewrite Hrun. }
  split; [done|].
  edestruct store_kv_total as (st2 & tr2 & Hkv2 & Hcache).
  rewrite Hkv in Hkv2. injection Hkv2 as <- <-.
  unfold final at 1. simpl. rewrite Hcache. simpl. apply lookup_insert_eq.
Qed.

(** C10: when [GIST_ID] or [GITHUB_TOKEN] is unset (or empty), a request
    that misses the cache fetches no configuration at all, and the model
    is called, once, with the prompt, the temperature and the token
    limit of the request (or their defaults) and nothing else. *)
Theorem unset_config_skips_fetch env w req st p :
  configured env = false ->
  prompt req = Some p -> p ≠ "" ->
  hit w (cacheKey (model_of req) p) st = false ->
  count is_fetch (trace (workflow env w (Ok req) st)) = 0%nat /\
  count is_run (trace (workflow env w (Ok req) st)) = 1%nat /\
  loaded_config env w = JObj [] /\
  EvAiRun (model_of req)
    (<["max_tokens" := JNum (max_tokens_of req)]>
       (<["temperature" := JNum (temperature_of req)]>
          (<["prompt" := JStr p]> ∅)))
    ∈ trace (workflow env w (Ok req) st).
Proof.
  intros Hunset Hp Hne Hmiss.
  destruct (miss_counts env w req st p) as (Hrun & Hfetch & Hin); [done..|].
  assert (loaded_config env w = JObj [] /\ load_trace env w = []) as [Hc Ht].
  { unfold loaded_config, load_trace. by rewrite load_config_unset. }
  rewrite Hfetch, Ht. repeat split; [done..|].
  unfold model_inputs in Hin. by rewrite Hc in Hin.
Qed.

(** C6: when the gist is configured and loading it fails (the fetch
    rejects, the response is not a success, or the payload is malformed),
    the loader returns the empty object after that one fetch, without
    throwing; the request fetches exactly once, the model is called with
    the request's own parameters, and when the model gives a result the
    response is a success carrying it. *)
Theorem config_failure_not_fatal env w req st p g t :
  GIST_ID env = Some g -> g ≠ "" ->
  GITHUB_TOKEN env = Some t -> t ≠ "" ->
  load_failure (fetch_gist w g t) ->
  prompt req = Some p -> p ≠ "" ->
  hit w (cacheKey (model_of req) p) st = false ->
  (exists label, forall st',
     load_config env w st' = (Ok (JObj []), st', [EvFetchGist g t; EvLog label])) /\
  count is_fetch (trace (workflow env w (Ok req) st)) = 1%nat /\
  model_inputs env w req p =
    ai_inputs p (temperature_of req) (max_tokens_of req) (JObj []) /\
  (forall result,
     model_answer env w req p = Ok result ->
     outcome (workflow env w (Ok req) st) = Ok (ai_body w result (model_of req)) /\
     status (ai_body w result (model_of req)) = 200).
Proof.
  intros Hg Hgne Ht Htne Hfail Hp Hne Hmiss.
  assert (configured env = true) as Hconf.
  { unfold configured. rewrite Hg, Ht. simpl.
    by rewrite !nonempty_eqb. }
  assert (exists label, forall st',
     load_config env w st' = (Ok (JObj []), st', [EvFetchGist g t; EvLog label]))
    as [label Hload].
  { unfold load_config. rewrite Hconf, Hg, Ht. simpl.
    destruct (getGistConfig_failed w g t blank Hfail) as [label Hb].
    exists label. intros st'.
    destruct (getGistConfig_failed w g t st' Hfail) as [label' Hst'].
    destruct (getGistConfig_total w g t) as (c & logs & Hrun & _).
    rewrite Hrun in Hb, Hst'. rewrite Hrun. congruence. }
  assert (loaded_config env w = JObj [] /\
          load_trace env w = [EvFetchGist g t; EvLog label]) as [Hc Htr].
  { unfold loaded_config, load_trace. by rewrite Hload. }
  split; [by exists label|].
  destruct (miss_counts env w req st p) as (_ & Hfetch & _); [done..|].
  split; [by rewrite Hfetch, Htr|].
  split; [unfold model_inputs; by rewrite Hc|].
  intros result Hans. split; [|done].
  by apply (miss_answer_cached env w req st p result).
Qed.





(** C4: an entry whose expiry is before the time of the read is treated
    as an absent one.  The read returns [null] and deletes the entry; the
    request then proceeds exactly as it does from the state without the
    entry; the model is called (once); and when the model gives a result
    the response carries it and the entry under the key is the fresh
    one. *)
Theorem expired_entry_as_absent env w req st p item :
  prompt req = Some p -> p ≠ "" ->
  cache st !! cacheKey (model_of req) p = Some item ->
  expiry item < now_get w ->
  getCached w (cacheKey (model_of req) p) st =
    (Ok None, with_cache st (delete (cacheKey (model_of req) p) (cache st)),
     [EvGetCached (cacheKey (model_of req) p)]) /\
  workflow env w (Ok req) st =
    workflow env w (Ok req)
      (with_cache st (delete (cacheKey (model_of req) p) (cache st))) /\
  EvAiRun (model_of req) (model_inputs env w req p)
    ∈ trace (workflow env w (Ok req) st) /\
  count is_run (trace (workflow env w (Ok req) st)) = 1%nat /\
  (forall result,
     model_answer env w req p = Ok result ->
     outcome (workflow env w (Ok req) st) = Ok (ai_body w result (model_of req)) /\
     cache (final (workflow env w (Ok req) st)) !! cacheKey (model_of req) p
       = Some (cached_entry w result)).
Proof.
  intros Hp Hne Hitem Hexp.
  pose proof (getCached_expired w _ st item Hitem Hexp) as Hread.
  assert (getCached w (cacheKey (model_of req) p)
            (with_cache st (delete (cacheKey (model_of req) p) (cache st))) =
          (Ok None, with_cache st (delete (cacheKey (model_of req) p) (cache st)),
           [EvGetCached (cacheKey (model_of req) p)])) as Hread'.
  { apply getCached_absent. simpl. apply lookup_delete_eq. }
  assert (hit w (cacheKey (model_of req) p) st = false) as Hmiss.
  { unfold hit. by rewrite Hread. }
  assert (hit w (cacheKey (model_of req) p)
            (with_cache st (delete (cacheKey (model_of req) p) (cache st))) = false)
    as Hmiss'.
  { unfold hit. by rewrite Hread'. }
  split; [done|]. split.
  { rewrite !(workflow_miss _ _ _ _ p) by done. by rewrite Hread, Hread'. }
  destruct (miss_counts env w req st p) as (Hrun & _ & Hin); [done..|].
  split; [done|]. split; [done|].
  intros result Hans.
  destruct (miss_answer_cached env w req st p result) as (Hout & Hcache & _); [done..|].
  split; [done|]. rewrite Hcache. apply lookup_insert_eq.
Qed.

(** C7, as the code has it: when the model call rejects on a miss, the
    caller receives status 500 with the message of the error; the model
    was called once; nothing was written to the cache or to the KV
    namespace, which is as before.  The cache is as the read left it:
    unchanged, or without the expired entry under the key of the
    request. *)
Theorem model_error_propagates env w req st p e :
  prompt req = Some p -> p ≠ "" ->
  hit w (cacheKey (model_of req) p) st = false ->
  ai_run w (model_of req) (model_inputs env w req p) = Throw e ->
  outcome (workflow env w (Ok req) st) = Ok (server_error w e) /\
  status (server_error w e) = 500 /\
  count is_run (trace (workflow env w (Ok req) st)) = 1%nat /\
  count is_set (trace (workflow env w (Ok req) st)) = 0%nat /\
  count is_put (trace (workflow env w (Ok req) st)) = 0%nat /\
  kv (final (workflow env w (Ok req) st)) = kv st /\
  (final (workflow env w (Ok req) st) = st \/
   exists item,
     cache st !! cacheKey (model_of req) p = Some item /\
     expiry item < now_get w /\
     final (workflow env w (Ok req) st) =
       with_cache st (delete (cacheKey (model_of req) p) (cache st))).
Proof.
  intros Hp Hne Hmiss Hrun.
  assert (model_answer env w req p = Throw e) as Hans.
  { unfold model_answer, and_then. by rewrite Hrun. }
  destruct (miss_counts env w req st p) as (Hruns & _ & _); [done..|].
  destruct (miss_error_counts env w req st p e) as (Hset & Hput); [done..|].
  assert (final (workflow env w (Ok req) st)
          = final (getCached w (cacheKey (model_of req) p) st)) as Hfinal.
  { by erewrite workflow_miss_error by eauto. }
  split; [by erewrite workflow_miss_error by eauto|].
  do 4 (split; [done|]).
  rewrite Hfinal. split; [apply getCached_kv | apply getCached_final].
Qed.

(** C1, as the code has it: on a request that reaches the model, the
    inputs of the (single) model call are merged property by property
    with the loaded configuration first, the request second and the
    defaults last.  A property of the configuration is passed as it is,
    whatever the request says; a temperature (token limit) that the
    configuration lacks is the one of the request, or the default 0.7
    (2048) when the request has none. *)
Theorem config_overrides_request env w req st p :
  prompt req = Some p -> p ≠ "" ->
  hit w (cacheKey (model_of req) p) st = false ->
  EvAiRun (model_of req) (model_inputs env w req p)
    ∈ trace (workflow env w (Ok req) st) /\
  count is_run (trace (workflow env w (Ok req) st)) = 1%nat /\
  (forall k v,
     props (loaded_config env w) !! k = Some v ->
     model_inputs env w req p !! k = Some v) /\
  (props (loaded_config env w) !! "temperature" = None ->
   model_inputs env w req p !! "temperature"
     = Some (JNum (default default_temperature (temperature req)))) /\
  (props (loaded_config env w) !! "max_tokens" = None ->
   model_inputs env w req p !! "max_tokens"
     = Some (JNum (default default_max_tokens (max_tokens req)))) /\
  (props (loaded_config env w) !! "prompt" = None ->
   model_inputs env w req p !! "prompt" = Some (JStr p)).
Proof.
  intros Hp Hne Hmiss.
  destruct (miss_counts env w req st p) as (Hruns & _ & Hin); [done..|].
  split; [done|]. split; [done|].
  unfold model_inputs.
  repeat split; [intros k v Hk | intros Hk ..];
    rewrite ai_inputs_lookup, Hk; done.
Qed.

(** ** Further properties of the worker *)

(** *** The cache on its own *)

(** X1: a value written with [setCache] is read back by [getCached] as
    long as the read happens no later than [ttl] seconds after the
    write (the expiry instant included); the read changes nothing. *)
Theorem cache_round_trip w1 w2 key v ttl st :
  now_get w2 <= now_set w1 + ttl * 1000 ->
  getCached w2 key (final (setCache w1 key v ttl st)) =
    (Ok (Some v), final (setCache w1 key v ttl st), [EvGetCached key]).
Proof.
  intros Hfresh. rewrite setCache_run. unfold final. simpl.
  by rewrite (getCached_fresh w2 key _ {| value := v; expiry := now_set w1 + ttl * 1000 |})
    by (done || apply lookup_insert_eq).
Qed.

(** X2: read later than [ttl] seconds after the write, the value is
    gone: the read returns [null] and leaves the cache as it was before
    the write, without the key. *)
Theorem cache_expires_after_ttl w1 w2 key v ttl st :
  now_set w1 + ttl * 1000 < now_get w2 ->
  getCached w2 key (final (setCache w1 key v ttl st)) =
    (Ok None, with_cache st (delete key (cache st)), [EvGetCached key]) /\
  cache (final (getCached w2 key (final (setCache w1 key v ttl st)))) !! key = None.
Proof.
  intros Hlate. rewrite setCache_run. unfold final. simpl.
  rewrite (getCached_expired w2 key _ {| value := v; expiry := now_set w1 + ttl * 1000 |})
    by (done || apply lookup_insert_eq).
  unfold with_cache, final. simpl. rewrite delete_insert_eq.
  split; [done | apply lookup_delete_eq].
Qed.

(** X3: a second write under the same key replaces the first one
    entirely, and a write under one key does not change what a read of
    another key returns. *)
Theorem setCache_last_wins w1 w2 w key other v1 v2 ttl1 ttl2 st :
  key ≠ other ->
  final (setCache w2 key v2 ttl2 (final (setCache w1 key v1 ttl1 st)))
    = final (setCache w2 key v2 ttl2 st) /\
  outcome (getCached w other (final (setCache w1 key v1 ttl1 st)))
    = outcome (getCached w other st).
Proof.
  intros Hne. rewrite !setCache_run. unfold final. simpl. split.
  - unfold with_cache. simpl. by rewrite insert_insert_eq.
  - unfold getCached, bind, emit, get_cache, put_cache, ret, outcome. simpl.
    rewrite lookup_insert_ne by done.
    destruct (cache st !! other) as [item|]; [|done].
    by destruct (now_get w >? expiry item).
Qed.

(** X4: reading a key twice is the same as reading it once, and a read
    never changes the entry of another key. *)
Theorem getCached_idempotent w key other st :
  key ≠ other ->
  outcome (getCached w key (final (getCached w key st))) = outcome (getCached w key st) /\
  final (getCached w key (final (getCached w key st))) = final (getCached w key st) /\
  cache (final (getCached w key st)) !! other = cache st !! other.
Proof.
  intros Hne.
  destruct (getCached_cases w key st)
    as [[Hnone Hg] | [(item & Hitem & Hexp & Hg) | (item & Hitem & Hfresh & Hg)]];
    rewrite Hg; unfold final, outcome; simpl.
  - by rewrite Hg.
  - rewrite getCached_absent by (simpl; apply lookup_delete_eq).
    simpl. by rewrite lookup_delete_ne.
  - by rewrite Hg.
Qed.

(** X5: an entry is served exactly when the clock has not passed its
    expiry; served or not, nothing but that entry can leave the cache. *)
Theorem getCached_served_iff w key st item :
  cache st !! key = Some item ->
  (outcome (getCached w key st) = Ok (Some (value item)) <-> now_get w <= expiry item) /\
  (outcome (getCached w key st) = Ok None <-> expiry item < now_get w) /\
  (final (getCached w key st) = st <-> now_get w <= expiry item).
Proof.
  intros Hitem. destruct (Z.lt_ge_cases (expiry item) (now_get w)) as [Hexp|Hfresh].
  - rewrite (getCached_expired w key st item) by done. unfold outcome, final. simpl.
    repeat split; try done; try lia.
    intros Hst. apply (f_equal (fun s => cache s !! key)) in Hst. simpl in Hst.
    rewrite lookup_delete_eq, Hitem in Hst. done.
  - rewrite (getCached_fresh w key st item) by done. unfold outcome, final. simpl.
    repeat split; try done; lia.
Qed.

(** *** The cache key *)

Lemma substring_short (n : nat) (p : string) :
  (String.length p <= n)%nat -> String.substring 0 n p = p.
Proof.
  revert n. induction p as [|c p IH]; intros [|n] Hlen; simpl in *; try done; try lia.
  f_equal. apply IH. lia.
Qed.

Lemma substring_length (n : nat) (p : string) :
  String.length (String.substring 0 n p) = (n `min` String.length p)%nat.
Proof.
  revert n. induction p as [|c p IH]; intros [|n]; simpl; try done.
  by rewrite IH.
Qed.

Lemma append_length (s1 s2 : string) :
  String.length (s1 +:+ s2) = (String.length s1 + String.length s2)%nat.
Proof. induction s1 as [|c s1 IH]; simpl; [done | by rewrite IH]. Qed.

Lemma append_inj_r (s a b : string) : s +:+ a = s +:+ b -> a = b.
Proof. induction s as [|c s IH]; simpl; [done|]. intros [= H]. by apply IH. Qed.

Lemma append_assoc (s1 s2 s3 : string) : (s1 +:+ s2) +:+ s3 = s1 +:+ (s2 +:+ s3).
Proof.
  induction s1 as [|c s1 IH]; [done|].
  change (String c ((s1 +:+ s2) +:+ s3) = String c (s1 +:+ s2 +:+ s3)).
  by rewrite IH.
Qed.

(** X6: for one model name, prompts of at most 50 characters never
    share a cache key: the key determines the prompt. *)
Theorem short_prompts_do_not_collide m p1 p2 :
  (String.length p1 <= 50)%nat ->
  (String.length p2 <= 50)%nat ->
  cacheKey m p1 = cacheKey m p2 ->
  p1 = p2.
Proof.
  intros H1 H2. unfold cacheKey.
  rewrite (substring_short 50 p1), (substring_short 50 p2) by done.
  intros Hk. by do 3 apply append_inj_r in Hk.
Qed.

(** X7: the key is [4 + |model| + min 50 |prompt|] characters long, so
    at most 54 characters longer than the model name. *)
Theorem cache_key_length m p :
  String.length (cacheKey m p)
    = (4 + String.length m + (50 `min` String.length p))%nat.
Proof.
  unfold cacheKey. rewrite !append_length, substring_length. simpl. lia.
Qed.

(** X8: the key does not separate the model name from the prompt: a
    model name that contains a colon shares its keys with the shorter
    model name before the colon. *)
Theorem cache_key_colon_ambiguity m s p :
  (String.length (s +:+ ":" +:+ p) <= 50)%nat ->
  cacheKey (m +:+ ":" +:+ s) p = cacheKey m (s +:+ ":" +:+ p).
Proof.
  intros Hlen. unfold cacheKey.
  rewrite (substring_short 50 (s +:+ ":" +:+ p)) by done.
  rewrite (substring_short 50 p).
  - by rewrite !append_assoc.
  - rewrite !append_length in Hlen. lia.
Qed.

(** *** The configuration loader *)

(** X9: a load either fails in one of the ways of [load_failure], and
    then returns the empty object after one fetch and one log line, or
    it got a success response whose gist holds a configuration, and then
    returns that configuration after one fetch and nothing else.  Either
    way it returns, and the state is untouched. *)
Theorem gist_load_dichotomy w g t st :
  (load_failure (fetch_gist w g t) /\
   exists label,
     getGistConfig w g t st = (Ok (JObj []), st, [EvFetchGist g t; EvLog label])) \/
  (exists s gist config,
     fetch_gist w g t = FetchResponds s (Ok gist) /\
     response_ok s = true /\
     gist_content gist = Ok config /\
     getGistConfig w g t st = (Ok config, st, [EvFetchGist g t])).
Proof.
  destruct (fetch_gist w g t) as [e | s [gist | e]] eqn:Hf.
  - left. split; [constructor|]. apply getGistConfig_failed. rewrite Hf. constructor.
  - destruct (response_ok s) eqn:Hs.
    + destruct (gist_content gist) as [config | e] eqn:Hc.
      * right. exists s, gist, config. eauto using getGistConfig_loaded.
      * left. split; [by econstructor|].
        apply getGistConfig_failed. rewrite Hf. by econstructor.
    + left. split; [by constructor|].
      apply getGistConfig_failed. rewrite Hf. by constructor.
  - left. split; [apply malformed_body|].
    apply getGistConfig_failed. rewrite Hf. apply malformed_body.
Qed.

(** *** The workflow route, case by case *)

Lemma store_kv_cases env w p result m st :
  (CONFIG env = false /\ store_kv env w p result m st = (Ok tt, st, [])) \/
  (CONFIG env = true /\
   kv_put w (kv_key w) (JSON_stringify (workflow_record w p result m)) = Ok tt /\
   store_kv env w p result m st =
     (Ok tt,
      with_kv st (<[kv_key w := JSON_stringify (workflow_record w p result m)]> (kv st)),
      [EvKvPut (kv_key w) (JSON_stringify (workflow_record w p result m)) 86400])) \/
  (CONFIG env = true /\
   (exists e, kv_put w (kv_key w) (JSON_stringify (workflow_record w p result m)) = Throw e) /\
   store_kv env w p result m st =
     (Ok tt, st,
      [EvKvPut (kv_key w) (JSON_stringify (workflow_record w p result m)) 86400;
       EvLog "KV storage error:"])).
Proof.
  destruct (CONFIG env) eqn:H.
  - destruct (kv_put w (kv_key w) (JSON_stringify (workflow_record w p result m)))
      as [[]|e] eqn:Hput.
    + right; left. eauto using store_kv_stored.
    + right; right. eauto 6 using store_kv_swallowed.
  - left. eauto using store_kv_unbound.
Qed.

Lemma hit_read w key st :
  hit w key st = true ->
  exists item,
    cache st !! key = Some item /\ now_get w <= expiry item /\
    truthy (value item) = true /\
    getCached w key st = (Ok (Some (value item)), st, [EvGetCached key]).
Proof.
  unfold hit, outcome. intros H.
  destruct (getCached_cases w key st)
    as [[_ Hg] | [(item & _ & _ & Hg) | (item & Hitem & Hfresh & Hg)]];
    rewrite Hg in H; simpl in H; try done.
  by exists item.
Qed.

Lemma workflow_cases env w body st :
  workflow_run env w st body (workflow env w body st).
Proof.
  destruct body as [req|e]; [|rewrite workflow_unreadable; constructor].
  destruct (truthy_str (prompt req)) eqn:Hp;
    [|rewrite workflow_invalid by done; by constructor].
  destruct (prompt req) as [p|] eqn:Hprompt; [|done].
  simpl in Hp. apply negb_true_iff, String.eqb_neq in Hp.
  destruct (hit w (cacheKey (model_of req) p) st) eqn:Hhit.
  - destruct (hit_read _ _ _ Hhit) as (item & Hitem & Hfresh & Hv & Hg).
    erewrite workflow_hit by eauto. by eapply run_hit.
  - destruct (model_answer env w req p) as [result|e] eqn:Hans.
    + destruct (workflow_miss_answer env w req st p result) as (st' & tr' & Hkv & ->);
        [done..|].
      by eapply run_answer.
    + erewrite workflow_miss_error by eauto. by eapply run_error.
Qed.

Lemma workflow_cases_ex env w body st :
  exists r, workflow env w body st = r /\ workflow_run env w st body r.
Proof. eexists. split; [reflexivity | apply workflow_cases]. Qed.

Ltac workflow_inv env w body st :=
  let r := fresh "r" in
  let H := fresh "Hrun" in
  destruct (workflow_cases_ex env w body st) as (r & -> & H);
  destruct H.

Ltac final_tuple :=
  repeat match goal with
         | |- context [final (?a, ?b, ?c)] => change (final (a, b, c)) with b
         | |- context [trace (?a, ?b, ?c)] => change (trace (a, b, c)) with c
         | |- context [outcome (?a, ?b, ?c)] => change (outcome (a, b, c)) with a
         end.

Lemma getCached_other w key other st :
  key ≠ other -> cache (final (getCached w key st)) !! other = cache st !! other.
Proof.
  intros Hne.
  destruct (getCached_final w key st) as [-> | (item & _ & _ & ->)]; [done|].
  simpl. by rewrite lookup_delete_ne.
Qed.

Lemma calls_app (t1 t2 : list Event) : calls (t1 ++ t2) = calls t1 ++ calls t2.
Proof. apply omap_app. Qed.

Lemma calls_logs (logs : list Event) :
  (forall ev, ev ∈ logs -> exists label, ev = EvLog label) -> calls logs = [].
Proof.
  induction logs as [|ev logs IH]; intros Hlogs; [done|].
  destruct (Hlogs ev) as [label ->]; [by left|].
  unfold calls in *. simpl. apply IH. intros ev' Hin. apply Hlogs. by right.
Qed.

Lemma load_trace_calls env w :
  calls (load_trace env w) = [] \/ calls (load_trace env w) = [CallFetch].
Proof.
  unfold load_trace, load_config. destruct (configured env); [|by left].
  destruct (getGistConfig_total w (default "" (GIST_ID env))
              (default "" (GITHUB_TOKEN env))) as (config & logs & Hrun & Hlogs).
  rewrite Hrun. unfold trace. simpl. right.
  change (calls (EvFetchGist ?g ?t :: logs)) with (CallFetch :: calls logs).
  by rewrite calls_logs.
Qed.

(** *** The workflow route as a whole *)

(** X10: for a body of the declared type, whenever the workflow route
    answers, the status is 200, 400 or 500.  A body that could not be
    read is answered 500; a body that was read is answered 400 exactly
    when its prompt is missing or empty; and with a non-empty prompt it
    is answered 200 exactly when the cache read hits or the model gives
    a result. *)
Theorem workflow_status env w body st r :
  outcome (workflow env w body st) = Ok r ->
  (status r = 200 \/ status r = 400 \/ status r = 500) /\
  (forall e, body = Throw e -> status r = 500) /\
  (forall req, body = Ok req ->
     (status r = 400 <-> truthy_str (prompt req) = false)) /\
  (forall req p, body = Ok req -> prompt req = Some p -> p ≠ "" ->
     (status r = 200 <->
      hit w (cacheKey (model_of req) p) st = true \/
      exists result, model_answer env w req p = Ok result)).
Proof.
  destruct (workflow_cases_ex env w body st) as (run & -> & Hrun).
  destruct Hrun as [e | req Hinv | req p item Hp Hne Hitem Hfresh Hv
                    | req p e Hp Hne Hmiss Hans | req p result st' tr' Hp Hne Hmiss Hans Hkv];
    intros [= <-]; simpl.
  - split; [auto|]. split; [done|]. split; done.
  - split; [auto|]. split; [done|]. split.
    + intros req' [= <-]. done.
    + intros req' p [= <-] Hp Hne. rewrite Hp in Hinv. simpl in Hinv.
      apply negb_false_iff, String.eqb_eq in Hinv. done.
  - split; [auto|]. split; [done|]. split.
    + intros req' [= <-]. rewrite Hp. simpl. rewrite (nonempty_eqb p Hne). done.
    + intros req' p' [= <-] Hp' _. rewrite Hp in Hp'. injection Hp' as <-.
      split; [|done]. intros _. left. unfold hit.
      by rewrite (getCached_fresh w _ st item).
  - split; [auto|]. split; [done|]. split.
    + intros req' [= <-]. rewrite Hp. simpl. rewrite (nonempty_eqb p Hne). done.
    + intros req' p' [= <-] Hp' _. rewrite Hp in Hp'. injection Hp' as <-.
      split; [done|]. intros [Hhit | [result Hres]]; congruence.
  - split; [auto|]. split; [done|]. split.
    + intros req' [= <-]. rewrite Hp. simpl. rewrite (nonempty_eqb p Hne). done.
    + intros req' p' [= <-] Hp' _. rewrite Hp in Hp'. injection Hp' as <-.
      split; [|done]. intros _. right. by exists result.
Qed.

(** X11: whatever the request, the calls of the workflow route come in
    one order, each at most once: cache read, gist fetch, model run,
    cache write, KV put.  The KV is put only after a cache write, and
    the cache is written only after a model run. *)
Theorem workflow_call_order env w body st :
  calls (trace (workflow env w body st))
    `sublist_of` [CallGet; CallFetch; CallRun; CallSet; CallPut] /\
  (count is_put (trace (workflow env w body st))
     <= count is_set (trace (workflow env w body st)))%nat /\
  (count is_set (trace (workflow env w body st))
     <= count is_run (trace (workflow env w body st)))%nat.
Proof.
  destruct (load_trace_counts env w) as (_ & Hlrun & Hlset & Hlput).
  workflow_inv env w body st; unfold trace; simpl.
  - split; [repeat constructor | by compute].
  - split; [repeat constructor | by compute].
  - split; [repeat constructor | by compute].
  - split.
    + change (calls (?e :: ?l)) with (calls ([e] ++ l)). rewrite !calls_app. simpl.
      destruct (load_trace_calls env w) as [-> | ->]; simpl; repeat constructor.
    + count_events. rewrite Hlrun, Hlset, Hlput. lia.
  - destruct (store_kv_cases env w p result (model_of req)
                (with_cache (final (getCached w (cacheKey (model_of req) p) st))
                   (<[cacheKey (model_of req) p := cached_entry w result]>
                      (cache (final (getCached w (cacheKey (model_of req) p) st))))))
      as [[_ Hkv] | [(_ & _ & Hkv) | (_ & _ & Hkv)]];
      rewrite Hkv in H3; injection H3 as <- <-; (split;
        [ change (calls (?e :: ?l)) with (calls ([e] ++ l)); rewrite !calls_app; simpl;
          destruct (load_trace_calls env w) as [-> | ->]; simpl; repeat constructor
        | count_events; rewrite Hlrun, Hlset, Hlput; lia ]).
Qed.

(** X12: a request changes no cache entry but the one under its own
    key. *)
Theorem workflow_cache_frame env w req st p k :
  prompt req = Some p ->
  k ≠ cacheKey (model_of req) p ->
  cache (final (workflow env w (Ok req) st)) !! k = cache st !! k.
Proof.
  intros Hp Hk.
  destruct (workflow_cases_ex env w (Ok req) st) as (r & -> & Hrun).
  inversion Hrun as [ | | req' p' item Hp' | req' p' e Hp' | req' p' result st' tr' Hp' Hne Hmiss Hans Hkv];
    subst; final_tuple; try done;
    rewrite Hp in Hp'; injection Hp' as <-.
  - by apply getCached_other.
  - destruct (store_kv_total env w p result (model_of req)
                (with_cache (final (getCached w (cacheKey (model_of req) p) st))
                   (<[cacheKey (model_of req) p := cached_entry w result]>
                      (cache (final (getCached w (cacheKey (model_of req) p) st))))))
      as (st2 & tr2 & Hkv2 & Hcache).
    rewrite Hkv in Hkv2. injection Hkv2 as <- <-.
    rewrite Hcache. simpl. rewrite lookup_insert_ne by done.
    by apply getCached_other.
Qed.

(** X13: a request changes no KV record but the one under
    ["workflow:" + Date.now()], and none at all when no namespace is
    bound. *)
Theorem workflow_kv_frame env w body st :
  (forall k, k ≠ kv_key w -> kv (final (workflow env w body st)) !! k = kv st !! k) /\
  (CONFIG env = false -> kv (final (workflow env w body st)) = kv st).
Proof.
  destruct (workflow_cases_ex env w body st) as (r & -> & Hrun).
  destruct Hrun as [ | | | req p e | req p result st' tr' Hp Hne Hmiss Hans Hkv];
    final_tuple; try done.
  - rewrite getCached_kv. done.
  - destruct (store_kv_cases env w p result (model_of req)
                (with_cache (final (getCached w (cacheKey (model_of req) p) st))
                   (<[cacheKey (model_of req) p := cached_entry w result]>
                      (cache (final (getCached w (cacheKey (model_of req) p) st))))))
      as [[Hc Hkv2] | [(Hc & _ & Hkv2) | (Hc & _ & Hkv2)]];
      rewrite Hkv in Hkv2; injection Hkv2 as -> ->; simpl; rewrite getCached_kv.
    + done.
    + split; [|congruence]. intros k Hk. by rewrite lookup_insert_ne.
    + done.
Qed.

(** X14: after a request that the model answered, the same request
    made no later than 3600 seconds after the cache write is served
    from the cache with the same result, in any environment and without
    calling the model or changing the state. *)
Theorem second_request_hits env1 w1 env2 w2 req st p result :
  prompt req = Some p -> p ≠ "" ->
  hit w1 (cacheKey (model_of req) p) st = false ->
  model_answer env1 w1 req p = Ok result ->
  now_get w2 <= now_set w1 + 3600 * 1000 ->
  workflow env2 w2 (Ok req) (final (workflow env1 w1 (Ok req) st)) =
    (Ok (cache_body w2 result (model_of req)),
     final (workflow env1 w1 (Ok req) st),
     [EvGetCached (cacheKey (model_of req) p)]).
Proof.
  intros Hp Hne Hmiss Hans Hfresh.
  destruct (miss_answer_cached env1 w1 req st p result) as (_ & Hcache & _); [done..|].
  assert (truthy result = true) as Hv.
  { unfold model_answer, and_then in Hans.
    destruct (ai_run w1 _ _) as [payload|]; [|done]. by eapply result_of_truthy. }
  apply (workflow_hit env2 w2 req _ p result); [done..| |done].
  apply (getCached_fresh w2 _ _ (cached_entry w1 result)); [|done].
  rewrite Hcache. apply lookup_insert_eq.
Qed.

(** X15: made later than that, the same request finds the entry
    expired and calls the model again, once. *)
Theorem second_request_after_ttl env1 w1 env2 w2 req st p result :
  prompt req = Some p -> p ≠ "" ->
  hit w1 (cacheKey (model_of req) p) st = false ->
  model_answer env1 w1 req p = Ok result ->
  now_set w1 + 3600 * 1000 < now_get w2 ->
  hit w2 (cacheKey (model_of req) p) (final (workflow env1 w1 (Ok req) st)) = false /\
  count is_run
    (trace (workflow env2 w2 (Ok req) (final (workflow env1 w1 (Ok req) st)))) = 1%nat /\
  EvAiRun (model_of req) (model_inputs env2 w2 req p)
    ∈ trace (workflow env2 w2 (Ok req) (final (workflow env1 w1 (Ok req) st))).
Proof.
  intros Hp Hne Hmiss Hans Hlate.
  destruct (miss_answer_cached env1 w1 req st p result) as (_ & Hcache & _); [done..|].
  assert (hit w2 (cacheKey (model_of req) p) (final (workflow env1 w1 (Ok req) st)) = false)
    as Hmiss2.
  { unfold hit.
    rewrite (getCached_expired w2 _ _ (cached_entry w1 result)); [done| |done].
    rewrite Hcache. apply lookup_insert_eq. }
  split; [done|].
  destruct (miss_counts env2 w2 req (final (workflow env1 w1 (Ok req) st)) p)
    as (Hrun & _ & Hin); done.
Qed.

(** X16: a model call that resolves to [null] is answered like an
    error: status 500 with the message of the [TypeError]; the model was
    called once and nothing was cached or put. *)
Theorem null_payload_is_an_error env w req st p :
  prompt req = Some p -> p ≠ "" ->
  hit w (cacheKey (model_of req) p) st = false ->
  ai_run w (model_of req) (model_inputs env w req p) = Ok JNull ->
  outcome (workflow env w (Ok req) st)
    = Ok (server_error w
            (mkError "Cannot read properties of null (reading 'response')")) /\
  count is_run (trace (workflow env w (Ok req) st)) = 1%nat /\
  count is_set (trace (workflow env w (Ok req) st)) = 0%nat /\
  count is_put (trace (workflow env w (Ok req) st)) = 0%nat /\
  final (workflow env w (Ok req) st)
    = final (getCached w (cacheKey (model_of req) p) st).
Proof.
  intros Hp Hne Hmiss Hrun.
  assert (model_answer env w req p
          = Throw (mkError "Cannot read properties of null (reading 'response')")) as Hans.
  { unfold model_answer, and_then. by rewrite Hrun. }
  destruct (miss_counts env w req st p) as (Hruns & _ & _); [done..|].
  destruct (miss_error_counts env w req st p _ Hp Hne Hmiss Hans) as (Hset & Hput).
  do 1 (split; [by erewrite workflow_miss_error by eauto|]).
  do 3 (split; [done|]).
  by erewrite workflow_miss_error by eauto.
Qed.

(** X17: when a namespace is bound and the put resolves, an answered
    miss leaves its record under ["workflow:" + Date.now()], replacing
    whatever was stored under that key; it is the last thing the request
    does. *)
Theorem ledger_record env w req st p result :
  prompt req = Some p -> p ≠ "" ->
  hit w (cacheKey (model_of req) p) st = false ->
  model_answer env w req p = Ok result ->
  CONFIG env = true ->
  kv_put w (kv_key w) (JSON_stringify (workflow_record w p result (model_of req))) = Ok tt ->
  kv (final (workflow env w (Ok req) st))
    = <[kv_key w := JSON_stringify (workflow_record w p result (model_of req))]> (kv st) /\
  count is_put (trace (workflow env w (Ok req) st)) = 1%nat /\
  last (trace (workflow env w (Ok req) st))
    = Some (EvKvPut (kv_key w)
              (JSON_stringify (workflow_record w p result (model_of req))) 86400).
Proof.
  intros Hp Hne Hmiss Hans Hbound Hput.
  destruct (workflow_miss_answer env w req st p result) as (st' & tr' & Hkv & ->);
    [done..|].
  rewrite store_kv_stored in Hkv by done. injection Hkv as <- <-.
  destruct (load_trace_counts env w) as (_ & _ & _ & Hlput).
  final_tuple. simpl. rewrite getCached_kv. split; [done|]. split.
  - count_events. by rewrite Hlput.
  - rewrite app_comm_cons.
    change [?b; ?c; ?d] with ([b; c] ++ [d]). rewrite app_assoc.
    apply last_snoc.
Qed.

(** *** The embed route *)

Lemma embed_unreadable w e st :
  embed w (Throw e) st = (Ok (embed_error e), st, []).
Proof. reflexivity. Qed.

Lemma embed_null w st :
  embed w (Ok JNull) st =
    (Ok (embed_error
           (mkError "Cannot destructure property 'text' of '(intermediate value)' as it is null.")),
     st, []).
Proof. reflexivity. Qed.

Lemma embed_no_text w b st :
  b ≠ JNull ->
  truthy_opt (props b !! "text") = false ->
  embed w (Ok b) st = (Ok text_required, st, []).
Proof.
  intros Hb Ht. unfold embed, try_catch, bind, lift, ret, destructure. simpl.
  destruct b; try done; simpl;
    (destruct (props _ !! "text") as [t|]; [simpl in Ht; rewrite Ht|]; done).
Qed.

Lemma embed_called w b t st :
  props b !! "text" = Some t ->
  truthy t = true ->
  b ≠ JNull ->
  embed w (Ok b) st =
    (Ok match and_then (ai_run w embedding_model (embed_inputs t)) first_embedding with
        | Ok first => embed_reply w first
        | Throw e => embed_error e
        end,
     st, [EvAiRun embedding_model (embed_inputs t)]).
Proof.
  intros Ht Htruthy Hb.
  unfold embed, try_catch, bind, lift, ret, throw, emit, destructure, and_then, embed_inputs.
  destruct b; try done; simpl; rewrite Ht, Htruthy;
    (destruct (ai_run w _ _) as [payload|e]; [|done];
     by destruct (first_embedding payload)).
Qed.

Lemma embed_cases w body st :
  exists r tr,
    embed w body st = (Ok r, st, tr) /\
    (code r = 200 \/ code r = 400 \/ code r = 500) /\
    headers r = jsonHeaders /\
    (tr = [] \/ exists t, tr = [EvAiRun embedding_model (embed_inputs t)]).
Proof.
  destruct body as [b|e]; [|rewrite embed_unreadable; eauto 10].
  assert (b = JNull \/ b ≠ JNull) as [->|Hb] by (destruct b; auto).
  { rewrite embed_null. eauto 10. }
  destruct (truthy_opt (props b !! "text")) eqn:Ht.
  - destruct (props b !! "text") as [t|] eqn:Hprop; [|done]. simpl in Ht.
    rewrite (embed_called w b t) by done.
    destruct (and_then _ _); eauto 10.
  - rewrite embed_no_text by done. eauto 10.
Qed.

(** Array elements as properties. *)
Lemma foldl_assign_notin (l : list (string * json)) (m : gmap string json) (k : string) :
  (forall kv, kv ∈ l -> kv.1 ≠ k) -> foldl assign m l !! k = m !! k.
Proof.
  revert m. induction l as [|[k' x] l IH]; intros m Hl; simpl; [done|].
  rewrite IH by (intros kv Hin; apply Hl; by right).
  unfold assign. simpl. apply lookup_insert_ne. apply (Hl (k', x)). by left.
Qed.

Lemma foldl_indexed (items : list json) (n : nat) (m : gmap string json) (i : nat) :
  foldl assign m (imap (fun j x => (pretty (n + j)%nat, x)) items) !! pretty (n + i)%nat =
  match items !! i with
  | Some x => Some x
  | None => m !! pretty (n + i)%nat
  end.
Proof.
  revert n m i. induction items as [|x items IH]; intros n m i; simpl; [done|].
  rewrite (imap_ext _ (fun j y => (pretty (S n + j)%nat, y))) by
    (intros j y _; simpl; by rewrite Nat.add_succ_r).
  destruct i as [|i]; simpl.
  - rewrite foldl_assign_notin.
    + unfold assign. simpl. apply lookup_insert_eq.
    + intros kv (j & y & -> & _)%elem_of_lookup_imap. simpl.
      intros Heq%(inj pretty). lia.
  - replace (n + S i)%nat with (S n + i)%nat by lia. rewrite IH.
    destruct (items !! i); [done|].
    unfold assign. simpl. apply lookup_insert_ne.
    intros Heq%(inj pretty). lia.
Qed.

Lemma props_array (items : list json) (i : nat) :
  props (JArr items) !! pretty i = items !! i.
Proof.
  unfold props, spread, own_fields, indexed.
  rewrite (foldl_indexed items 0 ∅ i). destruct (items !! i); [done|].
  apply lookup_empty.
Qed.

Lemma props_array_head (v : json) (rest : list json) :
  props (JArr (v :: rest)) !! "0" = Some v.
Proof. exact (props_array (v :: rest) 0). Qed.


(** X19: a readable body without a truthy [text] (a missing, empty,
    zero, false or null text, or a body that is not an object) is
    answered 400 "Text is required" without any call; a body that is
    JSON [null] is answered 500 instead. *)
Theorem embed_text_required w b st :
  truthy_opt (props b !! "text") = false ->
  (b ≠ JNull -> embed w (Ok b) st = (Ok text_required, st, [])) /\
  (b = JNull -> exists e, embed w (Ok b) st = (Ok (embed_error e), st, [])).
Proof.
  intros Ht. split.
  - intros Hb. by apply embed_no_text.
  - intros ->. eexists. apply embed_null.
Qed.

(** X20: with a truthy text and a model payload whose [data] is a
    non-empty array, the reply is 200 with the first element of that
    array; the model called is the embedding model, with the text as
    its only input, whatever else the body holds. *)
Theorem embed_returns_first_vector w b t st payload v rest :
  props b !! "text" = Some t ->
  truthy t = true ->
  ai_run w embedding_model (embed_inputs t) = Ok payload ->
  props payload !! "data" = Some (JArr (v :: rest)) ->
  embed w (Ok b) st =
    (Ok (embed_reply w (Some v)), st, [EvAiRun embedding_model (embed_inputs t)]).
Proof.
  intros Ht Htruthy Hrun Hdata.
  assert (b ≠ JNull) as Hb by (intros ->; done).
  assert (payload ≠ JNull) as Hpay by (intros ->; done).
  rewrite (embed_called w b t) by done. rewrite Hrun. simpl.
  unfold first_embedding, and_then, member.
  destruct payload; try done; rewrite Hdata;
    by rewrite props_array_head.
Qed.

(** X21: when the embedding model rejects, the reply is 500 with the
    message of the error as it is (no fallback text, no timestamp), and
    nothing is logged. *)
Theorem embed_model_error w b t st e :
  props b !! "text" = Some t ->
  truthy t = true ->
  ai_run w embedding_model (embed_inputs t) = Throw e ->
  embed w (Ok b) st =
    (Ok {| code := 500; headers := jsonHeaders;
           payload := JsonPayload (ErrorBody (message e) None) |},
     st, [EvAiRun embedding_model (embed_inputs t)]).
Proof.
  intros Ht Htruthy Hrun.
  assert (b ≠ JNull) as Hb by (intros ->; done).
  rewrite (embed_called w b t) by done. by rewrite Hrun.
Qed.

(** X22: a payload whose [data] is an empty array gives a 200 reply
    without embeddings; a payload without [data] gives a 500 reply with
    the message of the [TypeError]. *)
Theorem embed_data_edges w b t st payload :
  props b !! "text" = Some t ->
  truthy t = true ->
  ai_run w embedding_model (embed_inputs t) = Ok payload ->
  payload ≠ JNull ->
  (props payload !! "data" = Some (JArr []) ->
   outcome (embed w (Ok b) st) = Ok (embed_reply w None)) /\
  (props payload !! "data" = None ->
   outcome (embed w (Ok b) st)
     = Ok (embed_error (mkError "Cannot read properties of undefined (reading '0')"))).
Proof.
  intros Ht Htruthy Hrun Hpay.
  assert (b ≠ JNull) as Hb by (intros ->; done).
  rewrite (embed_called w b t) by done. rewrite Hrun. simpl.
  unfold first_embedding, and_then, member, outcome.
  split; intros Hdata; destruct payload; try done; by rewrite Hdata.
Qed.

(** *** The router *)

Lemma workflow_ok env w body st :
  exists r st' tr,
    workflow env w body st = (Ok r, st', tr) /\
    (status r = 200 \/ status r = 400 \/ status r = 500).
Proof.
  destruct (workflow_cases_ex env w body st) as (r & -> & Hrun).
  destruct Hrun; eexists _, _, _; (split; [reflexivity|]); simpl; auto.
Qed.

Lemma fetch_preflight env vars w req st :
  method req = "OPTIONS" ->
  fetch env vars w req st = (Ok preflight, st, []).
Proof. intros H. unfold fetch. by rewrite H. Qed.

Lemma fetch_health env vars w req st :
  method req ≠ "OPTIONS" ->
  pathname req = "/health" \/ pathname req = "/" ->
  fetch env vars w req st = (Ok (health_check vars w), st, []).
Proof.
  intros Hm Hp. unfold fetch. rewrite (proj2 (String.eqb_neq _ _) Hm).
  by destruct Hp as [-> | ->].
Qed.

Lemma fetch_workflow env vars w req st r st' tr :
  method req = "POST" ->
  pathname req = "/api/workflow" ->
  workflow env w (json_workflow req) st = (Ok r, st', tr) ->
  fetch env vars w req st = (Ok (json_reply r), st', tr).
Proof.
  intros Hm Hp Hrun. unfold fetch. rewrite Hm, Hp. simpl. unfold bind.
  rewrite Hrun. unfold ret. by rewrite app_nil_r.
Qed.

Lemma fetch_embed env vars w req st :
  method req = "POST" ->
  pathname req = "/api/embed" ->
  fetch env vars w req st = embed w (json_embed req) st.
Proof. intros Hm Hp. unfold fetch. by rewrite Hm, Hp. Qed.

Lemma fetch_not_found env vars w req st :
  method req ≠ "OPTIONS" ->
  pathname req ≠ "/health" -> pathname req ≠ "/" ->
  ~ (method req = "POST" /\ pathname req = "/api/workflow") ->
  ~ (method req = "POST" /\ pathname req = "/api/embed") ->
  fetch env vars w req st = (Ok not_found, st, []).
Proof.
  intros Hm Hh Hr Hw He. unfold fetch.
  rewrite (proj2 (String.eqb_neq _ _) Hm), (proj2 (String.eqb_neq _ _) Hh),
    (proj2 (String.eqb_neq _ _) Hr). simpl.
  destruct (String.eqb_spec (pathname req) "/api/workflow") as [Hp|_];
    destruct (String.eqb_spec (method req) "POST") as [Hpost|_]; simpl; try tauto;
    destruct (String.eqb_spec (pathname req) "/api/embed") as [Hp'|_]; simpl;
    try tauto; done.
Qed.

(** The request is routed to exactly one of the five branches. *)
Lemma fetch_routes req :
  method req = "OPTIONS" \/
  (method req ≠ "OPTIONS" /\ (pathname req = "/health" \/ pathname req = "/")) \/
  (method req = "POST" /\ pathname req = "/api/workflow") \/
  (method req = "POST" /\ pathname req = "/api/embed") \/
  (method req ≠ "OPTIONS" /\ pathname req ≠ "/health" /\ pathname req ≠ "/" /\
   ~ (method req = "POST" /\ pathname req = "/api/workflow") /\
   ~ (method req = "POST" /\ pathname req = "/api/embed")).
Proof.
  destruct (decide (method req = "OPTIONS")); [tauto|].
  destruct (decide (pathname req = "/health")); [tauto|].
  destruct (decide (pathname req = "/")); [tauto|].
  destruct (decide (method req = "POST")); destruct (decide (pathname req = "/api/workflow"));
    destruct (decide (pathname req = "/api/embed")); tauto.
Qed.

(** X23: the status of a response of [fetch] is 200, 400, 404 or 500,
    and it is 400 or 500 only for a POST to [/api/workflow] or to
    [/api/embed]. *)
Theorem fetch_status env vars w req st r :
  outcome (fetch env vars w req st) = Ok r ->
  (code r = 200 \/ code r = 400 \/ code r = 404 \/ code r = 500) /\
  (code r = 400 \/ code r = 500 ->
   method req = "POST" /\
   (pathname req = "/api/workflow" \/ pathname req = "/api/embed")).
Proof.
  destruct (fetch_routes req) as [Ho | [[Hm Hp] | [[Hm Hp] | [[Hm Hp] | (Hm & Hh & Hr & Hw & He)]]]].
  - rewrite fetch_preflight by done. intros [= <-]. simpl. split; [auto | lia].
  - rewrite fetch_health by done. intros [= <-]. simpl. split; [auto | lia].
  - destruct (workflow_ok env w (json_workflow req) st) as (r' & st' & tr & Hrun & Hs).
    rewrite (fetch_workflow _ _ _ _ _ _ _ _ Hm Hp Hrun). intros [= <-]. simpl.
    split; [tauto | auto].
  - rewrite fetch_embed by done.
    destruct (embed_cases w (json_embed req) st) as (r' & tr & -> & Hc & _).
    intros [= <-]. split; [tauto | auto].
  - rewrite fetch_not_found by done. intros [= <-]. simpl. split; [auto | lia].
Qed.

(** X24: every response of [fetch] carries the three CORS headers, and
    every response but the preflight one is declared as JSON. *)
Theorem fetch_cors env vars w req st :
  exists r,
    outcome (fetch env vars w req st) = Ok r /\
    corsHeaders `prefix_of` headers r /\
    (method req ≠ "OPTIONS" -> headers r = jsonHeaders).
Proof.
  assert (corsHeaders `prefix_of` jsonHeaders) as Hjson by (by eexists).
  destruct (fetch_routes req) as [Ho | [[Hm Hp] | [[Hm Hp] | [[Hm Hp] | (Hm & Hh & Hr & Hw & He)]]]].
  - rewrite fetch_preflight by done. eexists. split; [reflexivity|]. by split.
  - rewrite fetch_health by done. eexists. split; [reflexivity|]. by split.
  - destruct (workflow_ok env w (json_workflow req) st) as (r & st' & tr & Hrun & _).
    rewrite (fetch_workflow _ _ _ _ _ _ _ _ Hm Hp Hrun).
    eexists. split; [reflexivity|]. by split.
  - rewrite fetch_embed by done.
    destruct (embed_cases w (json_embed req) st) as (r & tr & -> & _ & Hh & _).
    eexists. split; [reflexivity|]. rewrite Hh. by split.
  - rewrite fetch_not_found by done. eexists. split; [reflexivity|]. by split.
Qed.

(** X25: a request whose method is not POST has no effect at all: no
    call, no log line, no state change; it is answered 200 (preflight
    or health check) or 404. *)
Theorem non_post_has_no_effect env vars w req st :
  method req ≠ "POST" ->
  exists r,
    fetch env vars w req st = (Ok r, st, []) /\
    (code r = 200 \/ code r = 404).
Proof.
  intros Hpost.
  destruct (fetch_routes req) as [Ho | [[Hm Hp] | [[Hm Hp] | [[Hm Hp] | (Hm & Hh & Hr & Hw & He)]]]];
    try done.
  - rewrite fetch_preflight by done. eexists. split; [reflexivity|]. simpl. auto.
  - rewrite fetch_health by done. eexists. split; [reflexivity|]. simpl. auto.
  - rewrite fetch_not_found by done. eexists. split; [reflexivity|]. simpl. auto.
Qed.

(** X26: the status is 404 exactly when no route matches: the method
    is not OPTIONS, the path is neither [/health] nor [/], and the
    request is not a POST to [/api/workflow] or [/api/embed] (so a GET
    to one of these two is not found). *)
Theorem not_found_iff env vars w req st r :
  outcome (fetch env vars w req st) = Ok r ->
  (code r = 404 <->
   method req ≠ "OPTIONS" /\ pathname req ≠ "/health" /\ pathname req ≠ "/" /\
   ~ (method req = "POST" /\ pathname req = "/api/workflow") /\
   ~ (method req = "POST" /\ pathname req = "/api/embed")).
Proof.
  destruct (fetch_routes req) as [Ho | [[Hm Hp] | [[Hm Hp] | [[Hm Hp] | (Hm & Hh & Hr & Hw & He)]]]].
  - rewrite fetch_preflight by done. intros [= <-]. simpl. split; [done | tauto].
  - rewrite fetch_health by done. intros [= <-]. simpl. split; [done|].
    intros (_ & ? & ? & _). tauto.
  - destruct (workflow_ok env w (json_workflow req) st) as (r' & st' & tr & Hrun & Hs).
    rewrite (fetch_workflow _ _ _ _ _ _ _ _ Hm Hp Hrun). intros [= <-]. simpl.
    split; [lia | tauto].
  - rewrite fetch_embed by done.
    destruct (embed_cases w (json_embed req) st) as (r' & tr & -> & Hc & _).
    intros [= <-]. split; [lia | tauto].
  - rewrite fetch_not_found by done. intros [= <-]. simpl. split; [tauto | done].
Qed.

(** X27: the health check answers on [/health] and on [/] for every
    method but OPTIONS, without any effect; a variable that is unset or
    empty is replaced by its default, a variable that is set is reported
    as it is. *)
Theorem health_check_reply env vars w req st :
  method req ≠ "OPTIONS" ->
  pathname req = "/health" \/ pathname req = "/" ->
  fetch env vars w req st = (Ok (health_check vars w), st, []) /\
  code (health_check vars w) = 200 /\
  (truthy_str (PROJECT_NAME vars) = false ->
   truthy_str (ENVIRONMENT vars) = false ->
   truthy_str (API_VERSION vars) = false ->
   payload (health_check vars w)
     = HealthPayload "healthy" "Heady AI Workflow Engine" "production" "v1" (iso_now w)) /\
  (forall name stage version,
     PROJECT_NAME vars = Some name -> name ≠ "" ->
     ENVIRONMENT vars = Some stage -> stage ≠ "" ->
     API_VERSION vars = Some version -> version ≠ "" ->
     payload (health_check vars w)
       = HealthPayload "healthy" name stage version (iso_now w)).
Proof.
  intros Hm Hp. split; [by apply fetch_health|]. split; [done|]. split.
  - intros H1 H2 H3. unfold health_check, or_else. cbn [payload].
    by rewrite H1, H2, H3.
  - intros name stage version Hname Hn Hstage Hs Hversion Hv.
    unfold health_check, or_else, truthy_str. cbn [payload].
    rewrite Hname, Hstage, Hversion. by rewrite !nonempty_eqb.
Qed.

(** X28: only a POST to [/api/workflow] can change the state (the
    embed route included), and whatever the request, the state after it
    is again a state of the worker, in which every cached value is
    truthy. *)
Theorem fetch_state env vars w req st :
  (~ (method req = "POST" /\ pathname req = "/api/workflow") ->
   final (fetch env vars w req st) = st) /\
  (reachable st ->
   reachable (final (fetch env vars w req st)) /\
   cache_truthy (final (fetch env vars w req st))).
Proof.
  destruct (fetch_routes req) as [Ho | [[Hm Hp] | [[Hm Hp] | [[Hm Hp] | (Hm & Hh & Hr & Hw & He)]]]].
  - rewrite fetch_preflight by done. eauto using reachable_truthy.
  - rewrite fetch_health by done. eauto using reachable_truthy.
  - destruct (workflow_ok env w (json_workflow req) st) as (r & st' & tr & Hrun & _).
    rewrite (fetch_workflow _ _ _ _ _ _ _ _ Hm Hp Hrun). final_tuple.
    split; [tauto|]. intros Hreach.
    assert (reachable st') as Hst'.
    { replace st' with (final (workflow env w (json_workflow req) st))
        by (by rewrite Hrun).
      by apply reachable_request. }
    eauto using reachable_truthy.
  - rewrite fetch_embed by done.
    destruct (embed_cases w (json_embed req) st) as (r & tr & -> & _).
    final_tuple. eauto using reachable_truthy.
  - rewrite fetch_not_found by done. eauto using reachable_truthy.
Qed.

(** X29: a POST to [/api/workflow] is answered by the workflow route:
    same status, the route's body as JSON, same calls and same state
    change. *)
Theorem fetch_runs_workflow env vars w req st :
  method req = "POST" ->
  pathname req = "/api/workflow" ->
  exists r,
    outcome (workflow env w (json_workflow req) st) = Ok r /\
    outcome (fetch env vars w req st)
      = Ok {| code := status r; headers := jsonHeaders; payload := JsonPayload (body r) |} /\
    final (fetch env vars w req st) = final (workflow env w (json_workflow req) st) /\
    trace (fetch env vars w req st) = trace (workflow env w (json_workflow req) st).
Proof.
  intros Hm Hp.
  destruct (workflow_ok env w (json_workflow req) st) as (r & st' & tr & Hrun & _).
  rewrite (fetch_workflow _ _ _ _ _ _ _ _ Hm Hp Hrun), Hrun. by exists r.
Qed.

End Worker.

(** ** The example host satisfies the assumption on [JSON.stringify] *)

Lemma append_nonempty (s1 s2 : string) : s1 ≠ "" -> s1 +:+ s2 ≠ "".
Proof. by destruct s1. Qed.

Lemma pretty_N_go_nonempty (x : N) (s : string) : s ≠ "" -> pretty_N_go x s ≠ "".
Proof.
  revert s. induction (N.lt_wf_0 x) as [x _ IH]; intros s Hs.
  assert (x = 0 \/ 0 < x)%N as [-> | Hpos] by lia.
  - by rewrite pretty_N_go_0.
  - rewrite pretty_N_go_step by done. apply IH; [by apply N.div_lt | done].
Qed.

Lemma pretty_N_nonempty (x : N) : pretty x ≠ "".
Proof.
  unfold pretty, pretty_N. case_decide; [done|].
  rewrite pretty_N_go_step by lia. by apply pretty_N_go_nonempty.
Qed.

Lemma pretty_Z_nonempty (z : Z) : pretty z ≠ "".
Proof.
  destruct z as [|x|x]; [done | apply pretty_N_nonempty |].
  unfold pretty, pretty_Z. done.
Qed.

Lemma sample_stringify_nonempty (v : json) : Sample.stringify v ≠ "".
Proof.
  destruct v as [|[]|q|s|items|fields]; try done.
  simpl. unfold Sample.number_text.
  destruct (Z.pos (Qden q) =? 1); [|apply append_nonempty]; apply pretty_Z_nonempty.
Qed.

Lemma stale_reachable : reachable Sample.parse Sample.stringify Sample.stale.
Proof.
  replace Sample.stale with
    (final (workflow Sample.parse Sample.stringify Sample.env_bare Sample.host_early
              (Ok Sample.req) Sample.empty)).
  - apply reachable_request. apply (reachable_start _ _ ∅).
  - vm_compute. reflexivity.
Qed.

(** ** The statements at the example host *)

Lemma invalid_prompt_rejected_witness :
  outcome (workflow Sample.parse Sample.stringify Sample.env_full Sample.host
             (Ok Sample.req_empty) Sample.stale) = Ok bad_request /\
  status bad_request = 400 /\
  trace (workflow Sample.parse Sample.stringify Sample.env_full Sample.host
           (Ok Sample.req_empty) Sample.stale) = [] /\
  final (workflow Sample.parse Sample.stringify Sample.env_full Sample.host
           (Ok Sample.req_empty) Sample.stale) = Sample.stale.
Proof.
  apply invalid_prompt_rejected. right. reflexivity.
Defined.

Lemma cache_key_prefix_witness :
  cacheKey "m1" "Summarise the following report in three sentences, please: A"
    = cacheKey "m1" "Summarise the following report in three sentences, please: B" /\
  head (trace (workflow Sample.parse Sample.stringify Sample.env_full Sample.host
                 (Ok {| prompt := Some "Summarise the following report in three sentences, please: A";
                        model := Some "m1"; temperature := None; max_tokens := None |})
                 Sample.empty))
    = Some (EvGetCached
              (cacheKey "m1" "Summarise the following report in three sentences, please: A")) /\
  head (trace (workflow Sample.parse Sample.stringify Sample.env_bare Sample.host_model_down
                 (Ok {| prompt := Some "Summarise the following report in three sentences, please: B";
                        model := Some "m1"; temperature := Some (1 # 2); max_tokens := None |})
                 Sample.stale))
    = Some (EvGetCached
              (cacheKey "m1" "Summarise the following report in three sentences, please: A")).
Proof.
  apply (cache_key_prefix Sample.parse Sample.stringify
           Sample.env_full Sample.host Sample.empty
           Sample.env_bare Sample.host_model_down Sample.stale
           {| prompt := Some "Summarise the following report in three sentences, please: A";
              model := Some "m1"; temperature := None; max_tokens := None |}
           {| prompt := Some "Summarise the following report in three sentences, please: B";
              model := Some "m1"; temperature := Some (1 # 2); max_tokens := None |}
           "Summarise the following report in three sentences, please: A"
           "Summarise the following report in three sentences, please: B");
    [reflexivity | discriminate | reflexivity | discriminate | reflexivity | reflexivity].
Defined.

Lemma cached_entry_served_witness :
  outcome (workflow Sample.parse Sample.stringify Sample.env_full Sample.host (Ok Sample.req)
             (final (workflow Sample.parse Sample.stringify Sample.env_full Sample.host
                       (Ok Sample.req) Sample.empty)))
    = Ok (cache_body Sample.host (JStr "X is a letter.") "m1") /\
  trace (workflow Sample.parse Sample.stringify Sample.env_full Sample.host (Ok Sample.req)
           (final (workflow Sample.parse Sample.stringify Sample.env_full Sample.host
                     (Ok Sample.req) Sample.empty)))
    = [EvGetCached Sample.key] /\
  final (workflow Sample.parse Sample.stringify Sample.env_full Sample.host (Ok Sample.req)
           (final (workflow Sample.parse Sample.stringify Sample.env_full Sample.host
                     (Ok Sample.req) Sample.empty)))
    = final (workflow Sample.parse Sample.stringify Sample.env_full Sample.host
               (Ok Sample.req) Sample.empty).
Proof.
  apply (cached_entry_served Sample.parse Sample.stringify sample_stringify_nonempty
           Sample.env_full Sample.host Sample.req _ "Explain X"
           (cached_entry Sample.host (JStr "X is a letter."))).
  - apply reachable_request. apply (reachable_start _ _ ∅).
  - reflexivity.
  - discriminate.
  - vm_compute. reflexivity.
  - vm_compute. discriminate.
Defined.

Lemma falsy_response_serialized_witness :
  result_of Sample.stringify (JObj [("done", JBool true)])
    = Ok (JStr (Sample.stringify (JObj [("done", JBool true)]))) /\
  outcome (workflow Sample.parse Sample.stringify Sample.env_full Sample.host_no_text
             (Ok Sample.req) Sample.empty)
    = Ok (ai_body Sample.host_no_text
            (JStr (Sample.stringify (JObj [("done", JBool true)]))) "m1") /\
  cache (final (workflow Sample.parse Sample.stringify Sample.env_full Sample.host_no_text
                  (Ok Sample.req) Sample.empty)) !! Sample.key
    = Some (cached_entry Sample.host_no_text
              (JStr (Sample.stringify (JObj [("done", JBool true)])))).
Proof.
  apply (falsy_response_serialized Sample.parse Sample.stringify
           Sample.env_full Sample.host_no_text Sample.req Sample.empty "Explain X"
           (JObj [("done", JBool true)])).
  - reflexivity.
  - discriminate.
  - vm_compute. reflexivity.
  - reflexivity.
  - discriminate.
  - vm_compute. reflexivity.
Defined.

Lemma unset_config_skips_fetch_witness :
  count is_fetch (trace (workflow Sample.parse Sample.stringify Sample.env_bare Sample.host
                           (Ok Sample.req) Sample.empty)) = 0%nat /\
  count is_run (trace (workflow Sample.parse Sample.stringify Sample.env_bare Sample.host
                         (Ok Sample.req) Sample.empty)) = 1%nat /\
  loaded_config Sample.parse Sample.env_bare Sample.host = JObj [] /\
  EvAiRun "m1"
    (<["max_tokens" := JNum (2048 # 1)]>
       (<["temperature" := JNum (9 # 10)]>
          (<["prompt" := JStr "Explain X"]> ∅)))
    ∈ trace (workflow Sample.parse Sample.stringify Sample.env_bare Sample.host
               (Ok Sample.req) Sample.empty).
Proof.
  apply (unset_config_skips_fetch Sample.parse Sample.stringify
           Sample.env_bare Sample.host Sample.req Sample.empty "Explain X").
  - reflexivity.
  - reflexivity.
  - discriminate.
  - vm_compute. reflexivity.
Defined.

Lemma config_failure_not_fatal_witness :
  (exists label, forall st',
     load_config Sample.parse Sample.env_full Sample.host_gist_down st'
       = (Ok (JObj []), st', [EvFetchGist "abc123" "ghp_token"; EvLog label])) /\
  count is_fetch (trace (workflow Sample.parse Sample.stringify Sample.env_full
                           Sample.host_gist_down (Ok Sample.req) Sample.empty)) = 1%nat /\
  model_inputs Sample.parse Sample.env_full Sample.host_gist_down Sample.req "Explain X"
    = ai_inputs "Explain X" (9 # 10) (2048 # 1) (JObj []) /\
  (forall result,
     model_answer Sample.parse Sample.stringify Sample.env_full Sample.host_gist_down
       Sample.req "Explain X" = Ok result ->
     outcome (workflow Sample.parse Sample.stringify Sample.env_full Sample.host_gist_down
                (Ok Sample.req) Sample.empty) = Ok (ai_body Sample.host_gist_down result "m1") /\
     status (ai_body Sample.host_gist_down result "m1") = 200).
Proof.
  apply (config_failure_not_fatal Sample.parse Sample.stringify
           Sample.env_full Sample.host_gist_down Sample.req Sample.empty
           "Explain X" "abc123" "ghp_token").
  - reflexivity.
  - discriminate.
  - reflexivity.
  - discriminate.
  - apply non_success. reflexivity.
  - reflexivity.
  - discriminate.
  - vm_compute. reflexivity.
Defined.


Lemma expired_entry_as_absent_witness :
  getCached Sample.host Sample.key Sample.stale
    = (Ok None, with_cache Sample.stale (delete Sample.key (cache Sample.stale)),
       [EvGetCached Sample.key]) /\
  workflow Sample.parse Sample.stringify Sample.env_full Sample.host (Ok Sample.req) Sample.stale
    = workflow Sample.parse Sample.stringify Sample.env_full Sample.host (Ok Sample.req)
        (with_cache Sample.stale (delete Sample.key (cache Sample.stale))) /\
  EvAiRun "m1" (model_inputs Sample.parse Sample.env_full Sample.host Sample.req "Explain X")
    ∈ trace (workflow Sample.parse Sample.stringify Sample.env_full Sample.host
               (Ok Sample.req) Sample.stale) /\
  count is_run (trace (workflow Sample.parse Sample.stringify Sample.env_full Sample.host
                         (Ok Sample.req) Sample.stale)) = 1%nat /\
  (forall result,
     model_answer Sample.parse Sample.stringify Sample.env_full Sample.host
       Sample.req "Explain X" = Ok result ->
     outcome (workflow Sample.parse Sample.stringify Sample.env_full Sample.host
                (Ok Sample.req) Sample.stale) = Ok (ai_body Sample.host result "m1") /\
     cache (final (workflow Sample.parse Sample.stringify Sample.env_full Sample.host
                     (Ok Sample.req) Sample.stale)) !! Sample.key
       = Some (cached_entry Sample.host result)).
Proof.
  apply (expired_entry_as_absent Sample.parse Sample.stringify
           Sample.env_full Sample.host Sample.req Sample.stale "Explain X"
           {| value := JStr "X is a letter."; expiry := 3600100 |}).
  - reflexivity.
  - discriminate.
  - vm_compute. reflexivity.
  - vm_compute. reflexivity.
Defined.

Lemma model_error_propagates_witness :
  outcome (workflow Sample.parse Sample.stringify Sample.env_full Sample.host_model_down
             (Ok Sample.req) Sample.stale)
    = Ok (server_error Sample.host_model_down (mkError "model unavailable")) /\
  status (server_error Sample.host_model_down (mkError "model unavailable")) = 500 /\
  count is_run (trace (workflow Sample.parse Sample.stringify Sample.env_full
                         Sample.host_model_down (Ok Sample.req) Sample.stale)) = 1%nat /\
  count is_set (trace (workflow Sample.parse Sample.stringify Sample.env_full
                         Sample.host_model_down (Ok Sample.req) Sample.stale)) = 0%nat /\
  count is_put (trace (workflow Sample.parse Sample.stringify Sample.env_full
                         Sample.host_model_down (Ok Sample.req) Sample.stale)) = 0%nat /\
  kv (final (workflow Sample.parse Sample.stringify Sample.env_full Sample.host_model_down
               (Ok Sample.req) Sample.stale)) = kv Sample.stale /\
  (final (workflow Sample.parse Sample.stringify Sample.env_full Sample.host_model_down
            (Ok Sample.req) Sample.stale) = Sample.stale \/
   exists item,
     cache Sample.stale !! Sample.key = Some item /\
     expiry item < now_get Sample.host_model_down /\
     final (workflow Sample.parse Sample.stringify Sample.env_full Sample.host_model_down
              (Ok Sample.req) Sample.stale)
       = with_cache Sample.stale (delete Sample.key (cache Sample.stale))).
Proof.
  apply (model_error_propagates Sample.parse Sample.stringify
           Sample.env_full Sample.host_model_down Sample.req Sample.stale
           "Explain X" (mkError "model unavailable")).
  - reflexivity.
  - discriminate.
  - vm_compute. reflexivity.
  - reflexivity.
Defined.

Lemma config_overrides_request_witness :
  EvAiRun "m1" (model_inputs Sample.parse Sample.env_full Sample.host Sample.req "Explain X")
    ∈ trace (workflow Sample.parse Sample.stringify Sample.env_full Sample.host
               (Ok Sample.req) Sample.empty) /\
  count is_run (trace (workflow Sample.parse Sample.stringify Sample.env_full Sample.host
                         (Ok Sample.req) Sample.empty)) = 1%nat /\
  (forall k v,
     props (loaded_config Sample.parse Sample.env_full Sample.host) !! k = Some v ->
     model_inputs Sample.parse Sample.env_full Sample.host Sample.req "Explain X" !! k
       = Some v) /\
  (props (loaded_config Sample.parse Sample.env_full Sample.host) !! "temperature" = None ->
   model_inputs Sample.parse Sample.env_full Sample.host Sample.req "Explain X" !! "temperature"
     = Some (JNum (9 # 10))) /\
  (props (loaded_config Sample.parse Sample.env_full Sample.host) !! "max_tokens" = None ->
   model_inputs Sample.parse Sample.env_full Sample.host Sample.req "Explain X" !! "max_tokens"
     = Some (JNum (2048 # 1))) /\
  (props (loaded_config Sample.parse Sample.env_full Sample.host) !! "prompt" = None ->
   model_inputs Sample.parse Sample.env_full Sample.host Sample.req "Explain X" !! "prompt"
     = Some (JStr "Explain X")).
Proof.
  apply (config_overrides_request Sample.parse Sample.stringify
           Sample.env_full Sample.host Sample.req Sample.empty "Explain X").
  - reflexivity.
  - discriminate.
  - vm_compute. reflexivity.
Defined.

(** ** Where the code departs from the specification *)

(** C1 as stated fails: the gist sets the temperature to 0.2, the request
    asks for 0.9, and the model is called with 0.2. *)
Lemma request_temperature_overridden :
  ~ request_temperature_overrides Sample.parse Sample.stringify
      Sample.env_full Sample.host Sample.req Sample.empty.
Proof.
  intros H.
  destruct (miss_counts Sample.parse Sample.stringify
              Sample.env_full Sample.host Sample.req Sample.empty "Explain X")
    as (_ & _ & Hin); [reflexivity | discriminate | by vm_compute |].
  specialize (H _ _ (9 # 10) Hin eq_refl).
  vm_compute in H. discriminate.
Qed.


(** C7 as stated fails: in the state left by an earlier request, more
    than an hour later, the model rejects, and the request has removed
    the expired entry that the cache held under its key. *)
Lemma model_error_changes_state :
  ~ error_leaves_state Sample.parse Sample.stringify
      Sample.env_full Sample.host_model_down Sample.req Sample.stale.
Proof.
  intros H.
  specialize (H "Explain X" (mkError "model unavailable") stale_reachable eq_refl).
  assert (final (workflow Sample.parse Sample.stringify Sample.env_full
                   Sample.host_model_down (Ok Sample.req) Sample.stale) = Sample.stale)
    as Hsame.
  { apply H; [discriminate | by vm_compute | reflexivity]. }
  apply (f_equal (fun st => cache st !! Sample.key)) in Hsame.
  vm_compute in Hsame. discriminate.
Qed.

(** ** The further properties at the example hosts *)

Lemma cache_round_trip_witness :
  getCached Sample.host_early "k"
    (final (setCache Sample.host_early "k" (JStr "v") 3600 Sample.empty)) =
  (Ok (Some (JStr "v")),
   final (setCache Sample.host_early "k" (JStr "v") 3600 Sample.empty),
   [EvGetCached "k"]).
Proof.
  apply (cache_round_trip Sample.host_early Sample.host_early "k" (JStr "v") 3600 Sample.empty).
  vm_compute. discriminate.
Defined.

Lemma cache_expires_after_ttl_witness :
  getCached Sample.host "k"
    (final (setCache Sample.host_early "k" (JStr "v") 3600 Sample.empty)) =
  (Ok None, with_cache Sample.empty (delete "k" (cache Sample.empty)), [EvGetCached "k"]) /\
  cache (final (getCached Sample.host "k"
                  (final (setCache Sample.host_early "k" (JStr "v") 3600 Sample.empty))))
    !! "k" = None.
Proof.
  apply (cache_expires_after_ttl Sample.host_early Sample.host "k" (JStr "v") 3600 Sample.empty).
  vm_compute. reflexivity.
Defined.

Lemma setCache_last_wins_witness :
  final (setCache Sample.host "k" (JStr "new") 60
           (final (setCache Sample.host_early "k" (JStr "old") 3600 Sample.stale)))
    = final (setCache Sample.host "k" (JStr "new") 60 Sample.stale) /\
  outcome (getCached Sample.host_early Sample.key
             (final (setCache Sample.host_early "k" (JStr "old") 3600 Sample.stale)))
    = outcome (getCached Sample.host_early Sample.key Sample.stale).
Proof.
  apply (setCache_last_wins Sample.host_early Sample.host Sample.host_early
           "k" Sample.key (JStr "old") (JStr "new") 3600 60 Sample.stale).
  vm_compute. discriminate.
Defined.

Lemma getCached_idempotent_witness :
  outcome (getCached Sample.host Sample.key (final (getCached Sample.host Sample.key Sample.stale)))
    = outcome (getCached Sample.host Sample.key Sample.stale) /\
  final (getCached Sample.host Sample.key (final (getCached Sample.host Sample.key Sample.stale)))
    = final (getCached Sample.host Sample.key Sample.stale) /\
  cache (final (getCached Sample.host Sample.key Sample.stale)) !! "k"
    = cache Sample.stale !! "k".
Proof.
  apply (getCached_idempotent Sample.host Sample.key "k" Sample.stale).
  vm_compute. discriminate.
Defined.

Lemma getCached_served_iff_witness :
  (outcome (getCached Sample.host Sample.key Sample.stale) = Ok (Some (JStr "X is a letter."))
   <-> now_get Sample.host <= 3600100) /\
  (outcome (getCached Sample.host Sample.key Sample.stale) = Ok None
   <-> 3600100 < now_get Sample.host) /\
  (final (getCached Sample.host Sample.key Sample.stale) = Sample.stale
   <-> now_get Sample.host <= 3600100).
Proof.
  apply (getCached_served_iff Sample.host Sample.key Sample.stale
           {| value := JStr "X is a letter."; expiry := 3600100 |}).
  vm_compute. reflexivity.
Defined.

Lemma short_prompts_do_not_collide_witness : "Explain X" = "Explain X".
Proof.
  apply (short_prompts_do_not_collide "m1" "Explain X" "Explain X").
  - vm_compute. lia.
  - vm_compute. lia.
  - reflexivity.
Defined.

Lemma cache_key_colon_ambiguity_witness :
  cacheKey ("@cf/meta" +:+ ":" +:+ "beta") "Explain X"
    = cacheKey "@cf/meta" ("beta" +:+ ":" +:+ "Explain X").
Proof.
  apply (cache_key_colon_ambiguity "@cf/meta" "beta" "Explain X").
  vm_compute. lia.
Defined.

Lemma workflow_cache_frame_witness :
  cache (final (workflow Sample.parse Sample.stringify Sample.env_full Sample.host
                  (Ok {| prompt := Some "Explain Y"; model := Some "m1";
                         temperature := None; max_tokens := None |}) Sample.stale))
    !! Sample.key
    = cache Sample.stale !! Sample.key.
Proof.
  apply (workflow_cache_frame Sample.parse Sample.stringify Sample.env_full Sample.host
           {| prompt := Some "Explain Y"; model := Some "m1";
              temperature := None; max_tokens := None |}
           Sample.stale "Explain Y" Sample.key).
  - reflexivity.
  - vm_compute. discriminate.
Defined.

Lemma second_request_hits_witness :
  workflow Sample.parse Sample.stringify Sample.env_bare Sample.host_early (Ok Sample.req)
    (final (workflow Sample.parse Sample.stringify Sample.env_full Sample.host_early
              (Ok Sample.req) Sample.empty)) =
  (Ok (cache_body Sample.host_early (JStr "X is a letter.") "m1"),
   final (workflow Sample.parse Sample.stringify Sample.env_full Sample.host_early
            (Ok Sample.req) Sample.empty),
   [EvGetCached Sample.key]).
Proof.
  apply (second_request_hits Sample.parse Sample.stringify sample_stringify_nonempty
           Sample.env_full Sample.host_early Sample.env_bare Sample.host_early
           Sample.req Sample.empty "Explain X" (JStr "X is a letter.")).
  - reflexivity.
  - discriminate.
  - vm_compute. reflexivity.
  - vm_compute. reflexivity.
  - vm_compute. discriminate.
Defined.

Lemma second_request_after_ttl_witness :
  hit Sample.host Sample.key
    (final (workflow Sample.parse Sample.stringify Sample.env_full Sample.host_early
              (Ok Sample.req) Sample.empty)) = false /\
  count is_run
    (trace (workflow Sample.parse Sample.stringify Sample.env_bare Sample.host (Ok Sample.req)
              (final (workflow Sample.parse Sample.stringify Sample.env_full Sample.host_early
                        (Ok Sample.req) Sample.empty)))) = 1%nat /\
  EvAiRun "m1" (model_inputs Sample.parse Sample.env_bare Sample.host Sample.req "Explain X")
    ∈ trace (workflow Sample.parse Sample.stringify Sample.env_bare Sample.host (Ok Sample.req)
               (final (workflow Sample.parse Sample.stringify Sample.env_full Sample.host_early
                         (Ok Sample.req) Sample.empty))).
Proof.
  apply (second_request_after_ttl Sample.parse Sample.stringify
           Sample.env_full Sample.host_early Sample.env_bare Sample.host
           Sample.req Sample.empty "Explain X" (JStr "X is a letter.")).
  - reflexivity.
  - discriminate.
  - vm_compute. reflexivity.
  - vm_compute. reflexivity.
  - vm_compute. reflexivity.
Defined.

Lemma null_payload_is_an_error_witness :
  outcome (workflow Sample.parse Sample.stringify Sample.env_full SampleRoutes.host_null
             (Ok Sample.req) Sample.empty)
    = Ok (server_error SampleRoutes.host_null
            (mkError "Cannot read properties of null (reading 'response')")) /\
  count is_run (trace (workflow Sample.parse Sample.stringify Sample.env_full
                         SampleRoutes.host_null (Ok Sample.req) Sample.empty)) = 1%nat /\
  count is_set (trace (workflow Sample.parse Sample.stringify Sample.env_full
                         SampleRoutes.host_null (Ok Sample.req) Sample.empty)) = 0%nat /\
  count is_put (trace (workflow Sample.parse Sample.stringify Sample.env_full
                         SampleRoutes.host_null (Ok Sample.req) Sample.empty)) = 0%nat /\
  final (workflow Sample.parse Sample.stringify Sample.env_full SampleRoutes.host_null
           (Ok Sample.req) Sample.empty)
    = final (getCached SampleRoutes.host_null Sample.key Sample.empty).
Proof.
  apply (null_payload_is_an_error Sample.parse Sample.stringify
           Sample.env_full SampleRoutes.host_null Sample.req Sample.empty "Explain X").
  - reflexivity.
  - discriminate.
  - vm_compute. reflexivity.
  - reflexivity.
Defined.

Lemma ledger_record_witness :
  kv (final (workflow Sample.parse Sample.stringify Sample.env_full Sample.host
               (Ok Sample.req) Sample.empty))
    = <[kv_key Sample.host :=
          Sample.stringify
            (workflow_record Sample.host "Explain X" (JStr "X is a letter.") "m1")]>
        (kv Sample.empty) /\
  count is_put (trace (workflow Sample.parse Sample.stringify Sample.env_full Sample.host
                         (Ok Sample.req) Sample.empty)) = 1%nat /\
  last (trace (workflow Sample.parse Sample.stringify Sample.env_full Sample.host
                 (Ok Sample.req) Sample.empty))
    = Some (EvKvPut (kv_key Sample.host)
              (Sample.stringify
                 (workflow_record Sample.host "Explain X" (JStr "X is a letter.") "m1"))
              86400).
Proof.
  apply (ledger_record Sample.parse Sample.stringify Sample.env_full Sample.host
           Sample.req Sample.empty "Explain X" (JStr "X is a letter.")).
  - reflexivity.
  - discriminate.
  - vm_compute. reflexivity.
  - vm_compute. reflexivity.
  - reflexivity.
  - reflexivity.
Defined.

Lemma embed_text_required_witness :
  (JObj [("text", JStr "")] ≠ JNull ->
   embed SampleRoutes.host_embed (Ok (JObj [("text", JStr "")])) Sample.stale
     = (Ok text_required, Sample.stale, [])) /\
  (JObj [("text", JStr "")] = JNull ->
   exists e,
     embed SampleRoutes.host_embed (Ok (JObj [("text", JStr "")])) Sample.stale
       = (Ok (embed_error e), Sample.stale, [])).
Proof.
  apply (embed_text_required SampleRoutes.host_embed (JObj [("text", JStr "")]) Sample.stale).
  vm_compute. reflexivity.
Defined.

Lemma embed_returns_first_vector_witness :
  embed SampleRoutes.host_embed (Ok (JObj [("text", SampleRoutes.text)])) Sample.stale =
  (Ok (embed_reply SampleRoutes.host_embed
         (Some (JArr [JNum (1 # 10); JNum (-2 # 10); JNum (3 # 10)]))),
   Sample.stale,
   [EvAiRun embedding_model (embed_inputs SampleRoutes.text)]).
Proof.
  apply (embed_returns_first_vector SampleRoutes.host_embed
           (JObj [("text", SampleRoutes.text)]) SampleRoutes.text Sample.stale
           SampleRoutes.vectors (JArr [JNum (1 # 10); JNum (-2 # 10); JNum (3 # 10)]) []).
  - vm_compute. reflexivity.
  - reflexivity.
  - reflexivity.
  - vm_compute. reflexivity.
Defined.

Lemma embed_model_error_witness :
  embed Sample.host_model_down (Ok (JObj [("text", SampleRoutes.text)])) Sample.stale =
  (Ok {| code := 500; headers := jsonHeaders;
         payload := JsonPayload (ErrorBody "model unavailable" None) |},
   Sample.stale,
   [EvAiRun embedding_model (embed_inputs SampleRoutes.text)]).
Proof.
  apply (embed_model_error Sample.host_model_down
           (JObj [("text", SampleRoutes.text)]) SampleRoutes.text Sample.stale
           (mkError "model unavailable")).
  - vm_compute. reflexivity.
  - reflexivity.
  - reflexivity.
Defined.

Lemma embed_data_edges_witness :
  (props Sample.answer !! "data" = Some (JArr []) ->
   outcome (embed Sample.host (Ok (JObj [("text", SampleRoutes.text)])) Sample.stale)
     = Ok (embed_reply Sample.host None)) /\
  (props Sample.answer !! "data" = None ->
   outcome (embed Sample.host (Ok (JObj [("text", SampleRoutes.text)])) Sample.stale)
     = Ok (embed_error (mkError "Cannot read properties of undefined (reading '0')"))).
Proof.
  apply (embed_data_edges Sample.host
           (JObj [("text", SampleRoutes.text)]) SampleRoutes.text Sample.stale Sample.answer).
  - vm_compute. reflexivity.
  - reflexivity.
  - reflexivity.
  - discriminate.
Defined.

Lemma non_post_has_no_effect_witness :
  exists r,
    fetch Sample.parse Sample.stringify Sample.env_full SampleRoutes.vars_unset Sample.host
      SampleRoutes.get_workflow Sample.stale = (Ok r, Sample.stale, []) /\
    (code r = 200 \/ code r = 404).
Proof.
  apply (non_post_has_no_effect Sample.parse Sample.stringify
           Sample.env_full SampleRoutes.vars_unset Sample.host
           SampleRoutes.get_workflow Sample.stale).
  discriminate.
Defined.

Lemma not_found_iff_witness :
  code not_found = 404 <->
  method SampleRoutes.get_workflow ≠ "OPTIONS" /\
  pathname SampleRoutes.get_workflow ≠ "/health" /\
  pathname SampleRoutes.get_workflow ≠ "/" /\
  ~ (method SampleRoutes.get_workflow = "POST" /\
     pathname SampleRoutes.get_workflow = "/api/workflow") /\
  ~ (method SampleRoutes.get_workflow = "POST" /\
     pathname SampleRoutes.get_workflow = "/api/embed").
Proof.
  apply (not_found_iff Sample.parse Sample.stringify
           Sample.env_full SampleRoutes.vars_unset Sample.host
           SampleRoutes.get_workflow Sample.stale not_found).
  reflexivity.
Defined.

Lemma health_check_reply_witness :
  fetch Sample.parse Sample.stringify Sample.env_full SampleRoutes.vars_unset Sample.host
    SampleRoutes.get_health Sample.stale
    = (Ok (health_check SampleRoutes.vars_unset Sample.host), Sample.stale, []) /\
  code (health_check SampleRoutes.vars_unset Sample.host) = 200 /\
  (truthy_str (PROJECT_NAME SampleRoutes.vars_unset) = false ->
   truthy_str (ENVIRONMENT SampleRoutes.vars_unset) = false ->
   truthy_str (API_VERSION SampleRoutes.vars_unset) = false ->
   payload (health_check SampleRoutes.vars_unset Sample.host)
     = HealthPayload "healthy" "Heady AI Workflow Engine" "production" "v1"
         (iso_now Sample.host)) /\
  (forall name stage version,
     PROJECT_NAME SampleRoutes.vars_unset = Some name -> name ≠ "" ->
     ENVIRONMENT SampleRoutes.vars_unset = Some stage -> stage ≠ "" ->
     API_VERSION SampleRoutes.vars_unset = Some version -> version ≠ "" ->
     payload (health_check SampleRoutes.vars_unset Sample.host)
       = HealthPayload "healthy" name stage version (iso_now Sample.host)).
Proof.
  apply (health_check_reply Sample.parse Sample.stringify
           Sample.env_full SampleRoutes.vars_unset Sample.host
           SampleRoutes.get_health Sample.stale).
  - discriminate.
  - left. reflexivity.
Defined.

Lemma fetch_state_witness :
  (~ (method SampleRoutes.post_embed = "POST" /\
      pathname SampleRoutes.post_embed = "/api/workflow") ->
   final (fetch Sample.parse Sample.stringify Sample.env_full SampleRoutes.vars_set
            SampleRoutes.host_embed SampleRoutes.post_embed Sample.stale) = Sample.stale) /\
  (reachable Sample.parse Sample.stringify Sample.stale ->
   reachable Sample.parse Sample.stringify
     (final (fetch Sample.parse Sample.stringify Sample.env_full SampleRoutes.vars_set
               SampleRoutes.host_embed SampleRoutes.post_embed Sample.stale)) /\
   cache_truthy
     (final (fetch Sample.parse Sample.stringify Sample.env_full SampleRoutes.vars_set
               SampleRoutes.host_embed SampleRoutes.post_embed Sample.stale))).
Proof.
  apply (fetch_state Sample.parse Sample.stringify sample_stringify_nonempty
           Sample.env_full SampleRoutes.vars_set SampleRoutes.host_embed
           SampleRoutes.post_embed Sample.stale).
Defined.

Lemma fetch_runs_workflow_witness :
  exists r,
    outcome (workflow Sample.parse Sample.stringify Sample.env_full Sample.host
               (json_workflow SampleRoutes.post_workflow) Sample.stale) = Ok r /\
    outcome (fetch Sample.parse Sample.stringify Sample.env_full SampleRoutes.vars_set
               Sample.host SampleRoutes.post_workflow Sample.stale)
      = Ok {| code := status r; headers := jsonHeaders; payload := JsonPayload (body r) |} /\
    final (fetch Sample.parse Sample.stringify Sample.env_full SampleRoutes.vars_set
             Sample.host SampleRoutes.post_workflow Sample.stale)
      = final (workflow Sample.parse Sample.stringify Sample.env_full Sample.host
                 (json_workflow SampleRoutes.post_workflow) Sample.stale) /\
    trace (fetch Sample.parse Sample.stringify Sample.env_full SampleRoutes.vars_set
             Sample.host SampleRoutes.post_workflow Sample.stale)
      = trace (workflow Sample.parse Sample.stringify Sample.env_full Sample.host
                 (json_workflow SampleRoutes.post_workflow) Sample.stale).
Proof.
  apply (fetch_runs_workflow Sample.parse Sample.stringify
           Sample.env_full SampleRoutes.vars_set Sample.host
           SampleRoutes.post_workflow Sample.stale).
  - reflexivity.
  - reflexivity.
Defined.

Lemma workflow_status_witness :
  (status (ai_body Sample.host (JStr "X is a letter.") "m1") = 200 \/
   status (ai_body Sample.host (JStr "X is a letter.") "m1") = 400 \/
   status (ai_body Sample.host (JStr "X is a letter.") "m1") = 500) /\
  (forall e, Ok Sample.req = Throw e ->
     status (ai_body Sample.host (JStr "X is a letter.") "m1") = 500) /\
  (forall req, Ok Sample.req = Ok req ->
     (status (ai_body Sample.host (JStr "X is a letter.") "m1") = 400
      <-> truthy_str (prompt req) = false)) /\
  (forall req p, Ok Sample.req = Ok req -> prompt req = Some p -> p ≠ "" ->
     (status (ai_body Sample.host (JStr "X is a letter.") "m1") = 200 <->
      hit Sample.host (cacheKey (model_of req) p) Sample.stale = true \/
      exists result,
        model_answer Sample.parse Sample.stringify Sample.env_full Sample.host req p
          = Ok result)).
Proof.
  apply (workflow_status Sample.parse Sample.stringify Sample.env_full Sample.host
           (Ok Sample.req) Sample.stale (ai_body Sample.host (JStr "X is a letter.") "m1")).
  vm_compute. reflexivity.
Defined.

Lemma fetch_status_witness :
  (code (embed_error (mkError "Cannot read properties of undefined (reading '0')")) = 200 \/
   code (embed_error (mkError "Cannot read properties of undefined (reading '0')")) = 400 \/
   code (embed_error (mkError "Cannot read properties of undefined (reading '0')")) = 404 \/
   code (embed_error (mkError "Cannot read properties of undefined (reading '0')")) = 500) /\
  (code (embed_error (mkError "Cannot read properties of undefined (reading '0')")) = 400 \/
   code (embed_error (mkError "Cannot read properties of undefined (reading '0')")) = 500 ->
   method SampleRoutes.post_embed = "POST" /\
   (pathname SampleRoutes.post_embed = "/api/workflow" \/
    pathname SampleRoutes.post_embed = "/api/embed")).
Proof.
  apply (fetch_status Sample.parse Sample.stringify Sample.env_full SampleRoutes.vars_set
           Sample.host SampleRoutes.post_embed Sample.stale
           (embed_error (mkError "Cannot read properties of undefined (reading '0')"))).
  vm_compute. reflexivity.
Defined.
